(** * Excel worksheet loader: a shallow embedding of [procedure.py]

    The stored procedure fetches spreadsheet files from a stage into [/tmp/],
    parses one worksheet of each with the first row as header, overwrites a
    destination table with the remaining rows and removes the local copy.

    The Python code is effectful and fallible: it is embedded in a state and
    exception monad over a [world] that holds what the procedure can change
    (local files, destination tables, the logger's output) together with the
    sequence of calls made to the outside.  The [session] argument of the
    Python functions is a record of the services the procedure only reads
    from: the SQL engine, the stage and the store's write policy. *)

From Stdlib Require Import Ascii String.
From stdpp Require Import base option list strings gmap pretty.

(** * The model

    The procedure's own code is [load_excel_worksheet_to_table_local] and
    [main].  Everything they call leaves the repository: the operating
    system, the workbook and data-frame libraries and the session.  These
    are modelled after the libraries' documented behaviour and the contracts
    of section 4 of the specification, with the failures the procedure can
    meet: a file missing on the stage, bytes that are no workbook, a missing
    sheet, an empty sheet, a refused write, a refused deletion, a failing
    query. *)

(** ** Data *)

(** A cell value as the workbook library hands it out.  Dates and floating
    point numbers play no role in the procedure, which never inspects a
    cell. *)
Inductive cell :=
  | CNone
  | CBool (b : bool)
  | CInt (z : Z)
  | CStr (s : string).

(** A row is a tuple of cells. *)
Definition row := list cell.

Record worksheet := Worksheet {
  title : string;
  cells : list row
}.

(** A workbook is the ordered list of its sheets. *)
Definition workbook := list worksheet.

(** The content of a file, on the stage or on the local disk: either the
    encoding of a workbook or bytes that are no workbook. *)
Inductive file :=
  | Xlsx (wb : workbook)
  | Garbage (bytes : list Byte.byte).

(** [pd.DataFrame]: column labels and body rows.  A destination table holds
    the frame that was last written to it. *)
Record DataFrame := Frame {
  columns : row;
  body : list row
}.

(** A [Row] of the mapping query's result. *)
Record Row := MkRow {
  STAGE_FILE_PATH : string;
  WORKSHEET_NAME : string;
  TARGET_TABLE : string
}.

(** ** Exceptions

    Every class below derives from Python's [Exception], so the procedure's
    [except Exception] clause catches each of them.  [context] is Python's
    [__context__]: the exception that was in flight when this one was
    raised. *)
Inductive exn_class :=
  | SnowparkSQLException   (* query, stage fetch and table write failures *)
  | FileNotFoundError
  | PermissionError
  | BadZipFile
  | KeyError
  | StopIteration
  | ValueError.

#[warnings="-register-all"]
Inductive exn :=
  | Exn (cls : exn_class) (msg : string) (context : option exn).

(** [str(e)] *)
Definition str (e : exn) : string := let 'Exn _ m _ := e in m.
Definition exn_context (e : exn) : option exn := let 'Exn _ _ c := e in c.

(** Raising [e] while [pending] is in flight. *)
Definition with_context (e pending : exn) : exn :=
  let 'Exn c m _ := e in Exn c m (Some pending).

Definition no_such_file (path : string) : exn :=
  Exn FileNotFoundError
      ("[Errno 2] No such file or directory: '" +:+ path +:+ "'") None.

Definition permission_denied (path : string) : exn :=
  Exn PermissionError ("[Errno 13] Permission denied: '" +:+ path +:+ "'") None.

Definition bad_zip_file : exn := Exn BadZipFile "File is not a zip file" None.

Definition missing_worksheet (name : string) : exn :=
  Exn KeyError ("'Worksheet " +:+ name +:+ " does not exist.'") None.

Definition stop_iteration : exn := Exn StopIteration "" None.

Definition shape_mismatch : exn :=
  Exn ValueError "columns passed do not match the passed data" None.

Definition stage_file_missing (stage_path : string) : exn :=
  Exn SnowparkSQLException ("File not found: " +:+ stage_path) None.

Definition write_rejected (target : string) : exn :=
  Exn SnowparkSQLException ("Write rejected: " +:+ target) None.

(** ** The world *)

Inductive level := INFO | ERROR.

(** Calls that leave the process, in the order they are made.  A call is
    recorded when it is attempted, whether or not it succeeds. *)
Inductive call :=
  | SqlCollect (query : string)
  | FileGet (stage_path local_dir : string)
  | Open (path : string)
  | SaveAsTable (target : string)
  | Remove (path : string).

Record world := World {
  fs : gmap string file;             (* local files, by path *)
  locked : gset string;              (* paths the process may not delete *)
  tables : gmap string DataFrame;    (* destination tables, by name *)
  log : list (level * string);       (* records emitted by [logger] *)
  calls : list call
}.

(** The session handle: the services the procedure calls but never changes.
    The keys of [stage] are the paths of its files.  A path without a file
    stands for every failing fetch: a file that is not there, or a copy
    that cannot complete. *)
Record Session := MkSession {
  sql_engine : string → exn + list Row;
  stage : gmap string file;
  store_rejects : string → DataFrame → bool
}.

Definition set_fs (f : gmap string file → gmap string file) (w : world) : world :=
  World (f (fs w)) (locked w) (tables w) (log w) (calls w).
Definition set_tables (f : gmap string DataFrame → gmap string DataFrame)
    (w : world) : world :=
  World (fs w) (locked w) (f (tables w)) (log w) (calls w).
Definition add_log (r : level * string) (w : world) : world :=
  World (fs w) (locked w) (tables w) (log w ++ [r]) (calls w).
Definition add_call (c : call) (w : world) : world :=
  World (fs w) (locked w) (tables w) (log w) (calls w ++ [c]).

(** ** Results and the monad of the procedure *)

(** The outcome of a call: a value, or a raised exception. *)
Inductive result (A : Type) :=
  | Ok (a : A)
  | Raise (e : exn).
Arguments Ok {A} a.
Arguments Raise {A} e.

(** Library calls that touch nothing outside their arguments live in
    [result]. *)
Global Instance result_ret : MRet result := λ A a, Ok a.
Global Instance result_bind : MBind result := λ A B k r,
  match r with
  | Ok a => k a
  | Raise e => Raise e
  end.

(** Calls that read or change the world. *)
Definition M (A : Type) : Type := world → result A * world.

Global Instance M_ret : MRet M := λ A a w, (Ok a, w).
Global Instance M_bind : MBind M := λ A B k m w,
  match m w with
  | (Ok a, w') => k a w'
  | (Raise e, w') => (Raise e, w')
  end.

Definition lift {A} (r : result A) : M A := λ w, (r, w).

Definition raise {A} (e : exn) : M A := λ w, (Raise e, w).

(** [try: body except Exception as e: handler(e)] *)
Definition try_except {A} (body : M A) (handler : exn → M A) : M A := λ w,
  match body w with
  | (Ok a, w') => (Ok a, w')
  | (Raise e, w') => handler e w'
  end.

(** [try: body finally: fin].  The [finally] suite runs on every exit of
    [body]; when it raises itself, its exception replaces the outcome of
    [body], keeping a pending exception as context only. *)
Definition try_finally {A} (body : M A) (fin : M unit) : M A := λ w,
  let '(r, w') := body w in
  match fin w' with
  | (Ok _, w'') => (r, w'')
  | (Raise f, w'') =>
      (Raise (match r with Raise e => with_context f e | Ok _ => f end), w'')
  end.

(** [for x in l: k(x)] *)
Fixpoint for_each {A} (l : list A) (k : A → M unit) : M unit :=
  match l with
  | [] => mret ()
  | x :: l' => k x ;; for_each l' k
  end.

(** ** [os.path] *)

Definition sep : ascii := "/"%char.

Fixpoint has_sep (p : string) : bool :=
  match p with
  | EmptyString => false
  | String c p' => Ascii.eqb c sep || has_sep p'
  end.

(** [os.path.basename]: [p[p.rfind('/') + 1:]], what follows the last
    separator. *)
Fixpoint basename (p : string) : string :=
  match p with
  | EmptyString => EmptyString
  | String _ p' => if has_sep p then basename p' else p
  end.

Definition startswith_sep (p : string) : bool :=
  match p with
  | String c _ => Ascii.eqb c sep
  | EmptyString => false
  end.

Fixpoint endswith_sep (p : string) : bool :=
  match p with
  | EmptyString => false
  | String c EmptyString => Ascii.eqb c sep
  | String _ p' => endswith_sep p'
  end.

(** [os.path.join] of two components. *)
Definition path_join (a b : string) : string :=
  if startswith_sep b then b
  else if String.eqb a EmptyString || endswith_sep a then a +:+ b
  else a +:+ String sep b.

(** ** The logger

    The logger's level is [INFO]: records of both levels are emitted. *)

Definition logger_info (msg : string) : M unit := λ w,
  (Ok (), add_log (INFO, msg) w).
Definition logger_error (msg : string) : M unit := λ w,
  (Ok (), add_log (ERROR, msg) w).

(** ** The local file system *)

(** [open(path, 'rb')] and reading the handle. *)
Definition open_rb (path : string) : M file := λ w,
  let w := add_call (Open path) w in
  match fs w !! path with
  | Some f => (Ok f, w)
  | None => (Raise (no_such_file path), w)
  end.

Definition os_path_exists (path : string) : M bool := λ w,
  (Ok (bool_decide (is_Some (fs w !! path))), w).

Definition os_remove (path : string) : M unit := λ w,
  let w := add_call (Remove path) w in
  if decide (path ∈ locked w) then (Raise (permission_denied path), w)
  else
    match fs w !! path with
    | Some _ => (Ok (), set_fs (delete path) w)
    | None => (Raise (no_such_file path), w)
    end.

(** ** The workbook library *)

(** [load_workbook(f)] *)
Definition load_workbook (f : file) : result workbook :=
  match f with
  | Xlsx wb => Ok wb
  | Garbage _ => Raise bad_zip_file
  end.

(** The first sheet whose title is exactly [name]. *)
Definition find_sheet (wb : workbook) (name : string) : option worksheet :=
  List.find (λ ws, String.eqb (title ws) name) wb.

(** [workbook[name]] *)
Definition workbook_getitem (wb : workbook) (name : string) : result worksheet :=
  match find_sheet wb name with
  | Some ws => Ok ws
  | None => Raise (missing_worksheet name)
  end.

Definition max_column (rs : list row) : nat :=
  foldr (λ r m, Nat.max (length r) m) 0 rs.

Definition pad (n : nat) (r : row) : row :=
  r ++ replicate (n - length r) CNone.

(** [sheet.values]: the rows in order, each as a tuple as wide as the sheet,
    blank cells being [None].  A sheet without cells yields no row. *)
Definition sheet_values (ws : worksheet) : list row :=
  pad (max_column (cells ws)) <$> cells ws.

(** [next(data)]: the rows are consumed one by one; what is returned with the
    row is the iterator's remaining content. *)
Definition next (data : list row) : result (row * list row) :=
  match data with
  | r :: rest => Ok (r, rest)
  | [] => Raise stop_iteration
  end.

(** [pd.DataFrame(data, columns=columns)].  Rows whose width differs from
    the number of labels are refused; on the fixed-width rows of
    [sheet_values] no such row occurs. *)
Definition pd_DataFrame (data : list row) (columns : row) : result DataFrame :=
  if forallb (λ r, Nat.eqb (length r) (length columns)) data then
    Ok (Frame columns data)
  else
    Raise shape_mismatch.

(** ** The session *)

(** [session.sql(query).collect()] *)
Definition session_sql_collect (session : Session) (query : string)
    : M (list Row) := λ w,
  let w := add_call (SqlCollect query) w in
  match sql_engine session query with
  | inr rows => (Ok rows, w)
  | inl e => (Raise e, w)
  end.

(** [session.file.get(stage_path, local_dir)]: copies the stage file into
    [local_dir] under its base name, replacing a file already there. *)
Definition session_file_get (session : Session) (stage_path local_dir : string)
    : M unit := λ w,
  let w := add_call (FileGet stage_path local_dir) w in
  match stage session !! stage_path with
  | Some f =>
      (Ok (), set_fs (insert (path_join local_dir (basename stage_path)) f) w)
  | None => (Raise (stage_file_missing stage_path), w)
  end.

(** [session.create_dataframe(df)]: the frame as the store will receive it.
    What the store refuses is decided when the frame is written. *)
Definition session_create_dataframe (session : Session) (df : DataFrame)
    : M DataFrame := mret df.

(** [df.write.mode("overwrite").save_as_table(target)]: the table's schema
    and rows are replaced by the frame's. *)
Definition save_as_table_overwrite (session : Session) (df : DataFrame)
    (target : string) : M unit := λ w,
  let w := add_call (SaveAsTable target) w in
  if store_rejects session target df then (Raise (write_rejected target), w)
  else (Ok (), set_tables (insert target df) w).

(** ** The procedure *)

Definition local_directory : string := "/tmp/".

(** The suite of the [with open(full_local_path, 'rb') as f] statement. *)
Definition with_block (session : Session)
    (full_local_path worksheet_name target_table : string) : M unit :=
  f ← open_rb full_local_path;
  workbook ← lift (load_workbook f);
  sheet ← lift (workbook_getitem workbook worksheet_name);
  let data := sheet_values sheet in
  '(columns, data) ← lift (next data);  (* [next(data)[0:]]: the whole tuple *)
  df ← lift (pd_DataFrame data columns);
  df2 ← session_create_dataframe session df;
  save_as_table_overwrite session df2 target_table ;;
  logger_info ("Successfully loaded data into table: " +:+ target_table).

(** The [except Exception as e] clause. *)
Definition except_clause (file_name : string) (e : exn) : M unit :=
  logger_error ("Error processing file " +:+ file_name +:+ ": " +:+ str e) ;;
  raise e.

(** The [finally] clause. *)
Definition finally_clause (full_local_path : string) : M unit :=
  exists_ ← os_path_exists full_local_path;
  if exists_ : bool then os_remove full_local_path else mret ().

Definition load_excel_worksheet_to_table_local (session : Session)
    (stage_file_path worksheet_name target_table : string) : M bool :=
  let file_name := basename stage_file_path in
  logger_info ("Attempting to GET file: " +:+ stage_file_path) ;;
  session_file_get session stage_file_path local_directory ;;
  let full_local_path := path_join local_directory file_name in
  try_finally
    (try_except
       (with_block session full_local_path worksheet_name target_table)
       (except_clause file_name))
    (finally_clause full_local_path) ;;
  mret true.

Definition mapping_query : string :=
  "
        SELECT '@INTEGRATIONS.FROSTBYTE_RAW_STAGE/intro/order_detail.xlsx' AS STAGE_FILE_PATH, 'order_detail' AS WORKSHEET_NAME, 'ORDER_DETAIL' AS TARGET_TABLE
        UNION
        SELECT '@INTEGRATIONS.FROSTBYTE_RAW_STAGE/intro/location.xlsx', 'location', 'LOCATION'
    ".

Definition success_status : string :=
  "SUCCESS: Excel files loaded into Snowflake tables.".

(** The loop of [main] over the mapping rows. *)
Definition load_all (session : Session) (mapping_df_rows : list Row) : M unit :=
  for_each mapping_df_rows (λ row,
    let stage_file_path := STAGE_FILE_PATH row in
    let worksheet_name := WORKSHEET_NAME row in
    let target_table := TARGET_TABLE row in
    load_excel_worksheet_to_table_local session
      stage_file_path worksheet_name target_table ;;
    mret ()).

Definition main (session : Session) : M string :=
  mapping_df_rows ← session_sql_collect session mapping_query;
  logger_info
    ("Found " +:+ pretty (length mapping_df_rows) +:+ " files to process.") ;;
  load_all session mapping_df_rows ;;
  logger_info "06_load_excel_files end" ;;
  mret success_status.

(** * Vocabulary of the statements *)

(** The path of the staged copy. *)
Definition full_local_path (stage_file_path : string) : string :=
  path_join local_directory (basename stage_file_path).

(** The pure part of the [with] block: from the content of the staged file
    to the frame that is written. *)
Definition parse (f : file) (worksheet_name : string) : result DataFrame :=
  workbook ← load_workbook f;
  sheet ← workbook_getitem workbook worksheet_name;
  '(columns, data) ← next (sheet_values sheet);
  pd_DataFrame data columns.

Definition attempt_message (stage_file_path : string) : level * string :=
  (INFO, "Attempting to GET file: " +:+ stage_file_path).

Definition success_message (target : string) : level * string :=
  (INFO, "Successfully loaded data into table: " +:+ target).

Definition error_message (stage_file_path : string) (e : exn) : level * string :=
  (ERROR, "Error processing file " +:+ basename stage_file_path +:+ ": " +:+ str e).

Definition found_message (rows : list Row) : level * string :=
  (INFO, "Found " +:+ pretty (length rows) +:+ " files to process.").

(** The world in which the fetch is attempted. *)
Definition fetching (p : string) (w : world) : world :=
  add_call (FileGet p local_directory) (add_log (attempt_message p) w).

(** The world once the fetch of the file [f] has returned. *)
Definition fetched (p : string) (f : file) (w : world) : world :=
  set_fs (insert (full_local_path p) f) (fetching p w).

(** The world once the [except] clause is through, for the outcome [r] of
    the [with] block in [w3]. *)
Definition handled (p : string) (r : result unit) (w3 : world) : world :=
  match r with
  | Ok _ => w3
  | Raise e => add_log (error_message p e) w3
  end.

(** The frame a mapping row leads to, when the stage holds its file, the
    worksheet parses and the store accepts the frame. *)
Definition planned (session : Session) (r : Row) : option DataFrame :=
  f ← (stage session !! STAGE_FILE_PATH r);
  match parse f (WORKSHEET_NAME r) with
  | Ok df => if store_rejects session (TARGET_TABLE r) df then None else Some df
  | Raise _ => None
  end.

(** A row whose load goes through: it has a planned frame and the staged
    copy can be deleted. *)
Definition loadable (session : Session) (lk : gset string) (r : Row) : Prop :=
  is_Some (planned session r) ∧ full_local_path (STAGE_FILE_PATH r) ∉ lk.

(** The calls of one successful load. *)
Definition record_calls (r : Row) : list call :=
  [FileGet (STAGE_FILE_PATH r) local_directory;
   Open (full_local_path (STAGE_FILE_PATH r));
   SaveAsTable (TARGET_TABLE r);
   Remove (full_local_path (STAGE_FILE_PATH r))].

(** The world after the successful load of [r], which wrote [df]. *)
Definition loaded (r : Row) (df : DataFrame) (w : world) : world :=
  World (delete (full_local_path (STAGE_FILE_PATH r)) (fs w))
        (locked w)
        (<[TARGET_TABLE r := df]> (tables w))
        (log w ++ [attempt_message (STAGE_FILE_PATH r);
                   success_message (TARGET_TABLE r)])
        (calls w ++ record_calls r).

Definition load_row (session : Session) (r : Row) : M bool :=
  load_excel_worksheet_to_table_local session
    (STAGE_FILE_PATH r) (WORKSHEET_NAME r) (TARGET_TABLE r).

(** The tables a run writes, in order, with the frames written. *)
Definition written (session : Session) (rows : list Row)
    : list (string * DataFrame) :=
  omap (λ r, (λ df, (TARGET_TABLE r, df)) <$> planned session r) rows.

Definition apply_writes (ws : list (string * DataFrame))
    (m : gmap string DataFrame) : gmap string DataFrame :=
  foldl (λ m '(t, df), <[t := df]> m) m ws.

(** The world after the successful loads of [rows], in order. *)
Definition loaded_all (session : Session) (rows : list Row) (w : world) : world :=
  foldl (λ w r, match planned session r with
                | Some df => loaded r df w
                | None => w
                end) w rows.

(** The targets of the table writes among the calls, in order. *)
Definition saved_tables (cs : list call) : list string :=
  omap (λ c, match c with SaveAsTable t => Some t | _ => None end) cs.

(** The stage paths of the fetches among the calls, in order. *)
Definition fetched_paths (cs : list call) : list string :=
  omap (λ c, match c with FileGet p _ => Some p | _ => None end) cs.

(** The world in which the loop starts. *)
Definition queried (rows : list Row) (w : world) : world :=
  add_log (found_message rows) (add_call (SqlCollect mapping_query) w).

(** * Example worlds *)

Definition order_detail_path : string :=
  "@INTEGRATIONS.FROSTBYTE_RAW_STAGE/intro/order_detail.xlsx".
Definition location_path : string :=
  "@INTEGRATIONS.FROSTBYTE_RAW_STAGE/intro/location.xlsx".
Definition people_path : string :=
  "@INTEGRATIONS.FROSTBYTE_RAW_STAGE/intro/people.xlsx".
Definition gone_path : string :=
  "@INTEGRATIONS.FROSTBYTE_RAW_STAGE/intro/gone.xlsx".

Definition order_detail_sheet : worksheet :=
  Worksheet "order_detail"
    [[CStr "ORDER_ID"; CStr "QUANTITY"]; [CInt 10; CInt 3]; [CInt 11; CInt 5]].
Definition location_sheet : worksheet :=
  Worksheet "location" [[CStr "LOCATION_ID"; CStr "CITY"]; [CInt 7; CStr "Oslo"]].
Definition people_sheet : worksheet :=
  Worksheet "people"
    [[CStr "ID"; CStr "NAME"]; [CInt 1; CStr "Alice"]; [CInt 2; CStr "Bob"]].
Definition blank_sheet : worksheet := Worksheet "blank" [].
Definition people_book : workbook := [people_sheet; blank_sheet].

(** The two rows of the mapping query. *)
Definition mapping_rows : list Row :=
  [MkRow order_detail_path "order_detail" "ORDER_DETAIL";
   MkRow location_path "location" "LOCATION"].

Definition frostbyte_stage : gmap string file :=
  {[ order_detail_path := Xlsx [order_detail_sheet];
     location_path := Xlsx [location_sheet];
     people_path := Xlsx people_book ]}.

Definition sql_error : exn :=
  Exn SnowparkSQLException "SQL compilation error" None.

(** A session whose services all answer. *)
Definition frostbyte : Session :=
  MkSession
    (λ q, if String.eqb q mapping_query then inr mapping_rows else inl sql_error)
    frostbyte_stage
    (λ _ _, false).

(** A session whose SQL engine fails. *)
Definition broken_engine : Session :=
  MkSession (λ _, inl sql_error) frostbyte_stage (λ _ _, false).

(** A session whose store refuses every write to [ORDER_DETAIL]. *)
Definition strict_store : Session :=
  MkSession (sql_engine frostbyte) frostbyte_stage
    (λ t _, String.eqb t "ORDER_DETAIL").

Definition old_people : DataFrame := Frame [CStr "LEGACY"] [[CInt 0]; [CInt 0]].

(** A world with an older [PEOPLE] table. *)
Definition clean : world :=
  World ∅ ∅ {[ "PEOPLE" := old_people ]} [] [].

(** A world in which [/tmp/gone.xlsx] is left from earlier. *)
Definition stale : world :=
  World {[ "/tmp/gone.xlsx" := Garbage [] ]} ∅ ∅ [] [].

(** A world in which the staged copy of the people workbook cannot be
    deleted. *)
Definition readonly_tmp : world :=
  World ∅ {[ "/tmp/people.xlsx" ]} {[ "PEOPLE" := old_people ]} [] [].


(** The log records of one successful load. *)
Definition record_log (r : Row) : list (level * string) :=
  [attempt_message (STAGE_FILE_PATH r); success_message (TARGET_TABLE r)].

Definition end_message : level * string := (INFO, "06_load_excel_files end").

(** ** Further example worlds *)

Definition headers_path : string :=
  "@INTEGRATIONS.FROSTBYTE_RAW_STAGE/intro/headers.xlsx".
Definition notes_path : string :=
  "@INTEGRATIONS.FROSTBYTE_RAW_STAGE/intro/notes.xlsx".

(** A sheet with a header row and nothing else. *)
Definition headers_sheet : worksheet :=
  Worksheet "headers" [[CStr "ID"; CStr "NAME"]].

(** A stage that also holds a header-only workbook and a file that is no
    workbook. *)
Definition archive_stage : gmap string file :=
  <[ headers_path := Xlsx [headers_sheet] ]>
    (<[ notes_path := Garbage [Byte.x6e; Byte.x6f] ]> frostbyte_stage).

Definition archive : Session :=
  MkSession (sql_engine frostbyte) archive_stage (λ _ _, false).

(** A session whose mapping query returns no row. *)
Definition no_rows : Session :=
  MkSession (λ _, inr []) frostbyte_stage (λ _ _, false).

(** Two rows that name the same target table. *)
Definition same_target_rows : list Row :=
  [MkRow order_detail_path "order_detail" "LATEST";
   MkRow location_path "location" "LATEST"].

Definition same_target : Session :=
  MkSession (λ _, inr same_target_rows) frostbyte_stage (λ _ _, false).

(** The location row first, then the order row, whose write the store
    refuses. *)
Definition late_failure_rows : list Row :=
  [MkRow location_path "location" "LOCATION";
   MkRow order_detail_path "order_detail" "ORDER_DETAIL"].

Definition late_failure : Session :=
  MkSession (λ _, inr late_failure_rows) frostbyte_stage
    (λ t _, String.eqb t "ORDER_DETAIL").

(** A session whose one mapping row names the sheet of the people workbook
    that has no row. *)
Definition blank_row : Session :=
  MkSession (λ _, inr [MkRow people_path "blank" "BLANK"]) frostbyte_stage
    (λ _ _, false).

(** * Properties *)

(** ** Paths *)

Lemma has_sep_basename p : has_sep (basename p) = false.
Proof.
  induction p as [|c p IH]; [done|].
  change (basename (String c p))
    with (if has_sep (String c p) then basename p else String c p).
  by destruct (has_sep (String c p)) eqn:E.
Qed.

Lemma startswith_sep_has_sep p : has_sep p = false → startswith_sep p = false.
Proof. destruct p as [|c p]; [done|]; simpl. by intros [? _]%orb_false_iff. Qed.

(** The staged copy lies directly in [/tmp/], under the base name. *)
Lemma full_local_path_eq p : full_local_path p = "/tmp/" +:+ basename p.
Proof.
  unfold full_local_path, path_join.
  by rewrite (startswith_sep_has_sep _ (has_sep_basename p)).
Qed.

(** ** Worksheets have fixed-width rows *)

Lemma max_column_ge (rs : list row) r : r ∈ rs → length r ≤ max_column rs.
Proof. induction 1 as [r rs|r r' rs _ IH]; simpl; lia. Qed.

Lemma length_pad n (r : row) : length r ≤ n → length (pad n r) = n.
Proof. intros. unfold pad. rewrite length_app, length_replicate. lia. Qed.

Lemma sheet_values_width ws r :
  r ∈ sheet_values ws → length r = max_column (cells ws).
Proof.
  unfold sheet_values. intros (r0 & -> & Hin)%list_elem_of_fmap.
  by apply length_pad, max_column_ge.
Qed.

Lemma pd_DataFrame_sheet ws header rest :
  sheet_values ws = header :: rest →
  pd_DataFrame rest header = Ok (Frame header rest).
Proof.
  intros Hv. unfold pd_DataFrame.
  assert (forallb (λ r : list cell, Nat.eqb (length r) (length header)) rest = true)
    as ->; [|done].
  apply forallb_forall. intros r Hr%list_elem_of_In.
  apply Nat.eqb_eq.
  rewrite (sheet_values_width ws r), (sheet_values_width ws header); [done|..];
    rewrite Hv; set_solver.
Qed.

(** ** The parse *)

Lemma parse_ok_inv f s df :
  parse f s = Ok df →
  ∃ wb ws header rest,
    f = Xlsx wb ∧ find_sheet wb s = Some ws ∧
    sheet_values ws = header :: rest ∧ df = Frame header rest.
Proof.
  unfold parse. destruct f as [wb|?]; [|done]. simpl.
  unfold workbook_getitem. destruct (find_sheet wb s) as [ws|] eqn:Hs; [|done].
  simpl. destruct (sheet_values ws) as [|header rest] eqn:Hv; [done|]. simpl.
  rewrite (pd_DataFrame_sheet _ _ _ Hv). intros [= <-]. eauto 10.
Qed.

Lemma parse_sheet wb s ws header rest :
  find_sheet wb s = Some ws → sheet_values ws = header :: rest →
  parse (Xlsx wb) s = Ok (Frame header rest).
Proof.
  intros Hs Hv. unfold parse, workbook_getitem. simpl. rewrite Hs. simpl.
  rewrite Hv. simpl. by apply pd_DataFrame_sheet with ws.
Qed.

Lemma parse_missing_worksheet wb s :
  find_sheet wb s = None → parse (Xlsx wb) s = Raise (missing_worksheet s).
Proof. intros Hs. unfold parse, workbook_getitem. simpl. by rewrite Hs. Qed.

Lemma parse_empty_worksheet wb s ws :
  find_sheet wb s = Some ws → sheet_values ws = [] →
  parse (Xlsx wb) s = Raise stop_iteration.
Proof.
  intros Hs Hv. unfold parse, workbook_getitem. simpl. rewrite Hs. simpl.
  by rewrite Hv.
Qed.

(** ** The loader, block by block *)

Section loader.
Context (session : Session).

Lemma with_block_unfold path s t w :
  with_block session path s t w =
    let w1 := add_call (Open path) w in
    match fs w !! path with
    | None => (Raise (no_such_file path), w1)
    | Some f =>
        match parse f s with
        | Raise e => (Raise e, w1)
        | Ok df =>
            let w2 := add_call (SaveAsTable t) w1 in
            if store_rejects session t df then (Raise (write_rejected t), w2)
            else (Ok (), add_log (success_message t)
                           (set_tables (insert t df) w2))
        end
    end.
Proof.
  unfold with_block, mbind, M_bind, open_rb, parse. simpl.
  destruct (fs w !! path) as [f|]; [|done].
  unfold lift. destruct (load_workbook f) as [wb|e]; [|done]. simpl.
  destruct (workbook_getitem wb s) as [ws|e]; [|done]. simpl.
  destruct (next (sheet_values ws)) as [[header rest]|e]; [|done]. simpl.
  destruct (pd_DataFrame rest header) as [df|e]; [|done].
  unfold session_create_dataframe, mret, M_ret, save_as_table_overwrite. simpl.
  by destruct (store_rejects session t df).
Qed.

Lemma with_block_fs path s t w :
  fs (with_block session path s t w).2 = fs w.
Proof.
  rewrite with_block_unfold. simpl.
  destruct (fs w !! path) as [f|]; [|done].
  destruct (parse f s) as [df|e]; [|done].
  by destruct (store_rejects session t df).
Qed.

Lemma with_block_locked path s t w :
  locked (with_block session path s t w).2 = locked w.
Proof.
  rewrite with_block_unfold. simpl.
  destruct (fs w !! path) as [f|]; [|done].
  destruct (parse f s) as [df|e]; [|done].
  by destruct (store_rejects session t df).
Qed.

Lemma finally_clause_unfold path w :
  finally_clause path w =
    match fs w !! path with
    | None => (Ok (), w)
    | Some _ =>
        let w1 := add_call (Remove path) w in
        if decide (path ∈ locked w) then (Raise (permission_denied path), w1)
        else (Ok (), set_fs (delete path) w1)
    end.
Proof.
  unfold finally_clause, mbind, M_bind, os_path_exists, os_remove. simpl.
  destruct (fs w !! path) as [f|] eqn:Hf.
  - rewrite bool_decide_eq_true_2 by eauto. simpl. rewrite Hf.
    by destruct (decide _).
  - rewrite bool_decide_eq_false_2; [done|]. by intros [? ?].
Qed.

(** The fetch raises: the loader is left at once. *)
Lemma load_fetch_failed p s t w :
  stage session !! p = None →
  load_excel_worksheet_to_table_local session p s t w =
    (Raise (stage_file_missing p), fetching p w).
Proof.
  intros Hp. unfold load_excel_worksheet_to_table_local, mbind, M_bind.
  simpl. unfold session_file_get. by rewrite Hp.
Qed.

(** The fetch returns: the [with] block runs on the staged copy, the
    [except] clause logs what it raised and the [finally] clause deletes
    the copy. *)
Lemma load_fetched p s t w f r w3 :
  stage session !! p = Some f →
  with_block session (full_local_path p) s t (fetched p f w) = (r, w3) →
  load_excel_worksheet_to_table_local session p s t w =
    let w4 := add_call (Remove (full_local_path p)) (handled p r w3) in
    if decide (full_local_path p ∈ locked w) then
      (Raise match r with
             | Ok _ => permission_denied (full_local_path p)
             | Raise e => with_context (permission_denied (full_local_path p)) e
             end, w4)
    else
      (match r with Ok _ => Ok true | Raise e => Raise e end,
       set_fs (delete (full_local_path p)) w4).
Proof.
  intros Hp Hb.
  pose proof (with_block_fs (full_local_path p) s t (fetched p f w)) as Hfs.
  pose proof (with_block_locked (full_local_path p) s t (fetched p f w)) as Hlk.
  rewrite Hb in Hfs, Hlk. simpl in Hfs, Hlk.
  assert (fs w3 !! full_local_path p = Some f) as Hf.
  { rewrite Hfs. apply lookup_insert_eq. }
  unfold load_excel_worksheet_to_table_local, mbind, M_bind. simpl.
  unfold session_file_get. rewrite Hp. simpl.
  unfold try_finally, try_except.
  change (set_fs _ (add_call _ (add_log _ w))) with (fetched p f w).
  change (path_join local_directory (basename p)) with (full_local_path p).
  rewrite Hb. destruct r as [[]|e]; simpl.
  - rewrite finally_clause_unfold, Hf. simpl. rewrite Hlk.
    by destruct (decide _).
  - rewrite finally_clause_unfold. simpl. rewrite Hf, Hlk.
    by destruct (decide _).
Qed.

Lemma with_block_fetched p s t f w :
  with_block session (full_local_path p) s t (fetched p f w) =
    let w1 := add_call (Open (full_local_path p)) (fetched p f w) in
    match parse f s with
    | Raise e => (Raise e, w1)
    | Ok df =>
        let w2 := add_call (SaveAsTable t) w1 in
        if store_rejects session t df then (Raise (write_rejected t), w2)
        else (Ok (), add_log (success_message t)
                       (set_tables (insert t df) w2))
    end.
Proof.
  rewrite with_block_unfold.
  assert (fs (fetched p f w) !! full_local_path p = Some f) as ->; [|done].
  apply lookup_insert_eq.
Qed.

(** The outcome [Hb] of the [with] block on the staged copy, from the
    outcome [Hparse] of the parse. *)
Local Ltac block_outcome p s t f w Hparse Hb :=
  pose proof (with_block_fetched p s t f w) as Hb;
  rewrite Hparse in Hb; simpl in Hb.

(** A load whose parse raises [e]: nothing is written, the error is logged
    and the cleanup is attempted. *)
Lemma load_parse_error p s t w f e :
  stage session !! p = Some f → parse f s = Raise e →
  ∃ e' w',
    load_excel_worksheet_to_table_local session p s t w = (Raise e', w') ∧
    tables w' = tables w ∧
    log w' = log w ++ [attempt_message p; error_message p e] ∧
    calls w' = calls w ++ [FileGet p local_directory; Open (full_local_path p);
                           Remove (full_local_path p)] ∧
    (e' = e ∨ exn_context e' = Some e) ∧
    (full_local_path p ∉ locked w → e' = e ∧ fs w' !! full_local_path p = None).
Proof.
  intros Hp He. block_outcome p s t f w He Hb.
  rewrite (load_fetched _ _ _ _ _ _ _ Hp Hb). simpl.
  destruct (decide (full_local_path p ∈ locked w)) as [Hl|Hl];
    eexists _, _; (split; [reflexivity|]); simpl;
    rewrite <- !(assoc_L (++)); simpl.
  - repeat split; try done. by right.
  - repeat split; auto. apply lookup_delete_eq.
Qed.

Lemma load_ok r df w :
  planned session r = Some df →
  full_local_path (STAGE_FILE_PATH r) ∉ locked w →
  load_row session r w = (Ok true, loaded r df w).
Proof.
  destruct r as [p s t]. unfold planned, load_row. simpl. intros Hpl Hl.
  destruct (stage session !! p) as [f|] eqn:Hp; [|done]. simpl in Hpl.
  destruct (parse f s) as [df'|] eqn:Hparse; [|done].
  destruct (store_rejects session t df') eqn:Hrej; [done|].
  injection Hpl as ->. block_outcome p s t f w Hparse Hb. rewrite Hrej in Hb.
  rewrite (load_fetched _ _ _ _ _ _ _ Hp Hb).
  simpl. rewrite decide_False by done. f_equal.
  unfold loaded, set_fs, record_calls. simpl. f_equal.
  - apply delete_insert_eq.
  - by rewrite <- (assoc_L (++)).
  - by rewrite <- !(assoc_L (++)).
Qed.

Lemma load_ok_inv p s t w b w' :
  load_excel_worksheet_to_table_local session p s t w = (Ok b, w') →
  ∃ df, planned session (MkRow p s t) = Some df ∧
        (full_local_path p ∉ locked w) ∧
        b = true ∧ w' = loaded (MkRow p s t) df w.
Proof.
  intros Hload.
  destruct (stage session !! p) as [f|] eqn:Hp;
    [|by rewrite load_fetch_failed in Hload].
  assert (planned session (MkRow p s t) =
          match parse f s with
          | Ok df => if store_rejects session t df then None else Some df
          | Raise _ => None
          end) as Hpl.
  { unfold planned. simpl. by rewrite Hp. }
  destruct (parse f s) as [df|e] eqn:Hparse; block_outcome p s t f w Hparse Hb;
    [destruct (store_rejects session t df) eqn:Hrej|];
    rewrite (load_fetched _ _ _ _ _ _ _ Hp Hb) in Hload; simpl in Hload;
    destruct (decide (full_local_path p ∈ locked w)) as [Hl|Hl]; try done.
  rewrite ?Hparse, ?Hrej in Hpl.
  exists df. injection Hload as <- <-. split_and!; [done..|].
  unfold loaded, set_fs, record_calls. simpl. f_equal.
  - apply delete_insert_eq.
  - by rewrite <- (assoc_L (++)).
  - by rewrite <- !(assoc_L (++)).
Qed.

(** Whatever its outcome, a load makes calls for its own row only: some of
    the calls of a successful load, in their order. *)
Lemma load_calls r :
  ∃ cs, cs `sublist_of` record_calls r ∧
        ∀ w, calls (load_row session r w).2 = calls w ++ cs.
Proof.
  destruct r as [p s t]. unfold load_row. simpl.
  destruct (stage session !! p) as [f|] eqn:Hp.
  - destruct (parse f s) as [df|e0] eqn:Hparse.
    + exists (record_calls (MkRow p s t)). split; [done|]. intros w.
      block_outcome p s t f w Hparse Hb.
      destruct (store_rejects session t df);
        rewrite (load_fetched _ _ _ _ _ _ _ Hp Hb); simpl;
        destruct (decide _); simpl; by rewrite <- !(assoc_L (++)).
    + exists [FileGet p local_directory; Open (full_local_path p);
              Remove (full_local_path p)].
      split; [unfold record_calls; simpl; by repeat constructor|].
      intros w. block_outcome p s t f w Hparse Hb.
      rewrite (load_fetched _ _ _ _ _ _ _ Hp Hb); simpl;
        destruct (decide _); simpl; by rewrite <- !(assoc_L (++)).
  - exists [FileGet p local_directory].
    split; [unfold record_calls; simpl; by repeat constructor|].
    intros w. by rewrite load_fetch_failed.
Qed.

(** What makes a row loadable, spelled out: the stage holds a workbook at
    its path, the workbook has the named sheet, the sheet has a header
    row, the store accepts the frame and the staged copy can be
    deleted. *)
Lemma loadable_iff lk r :
  loadable session lk r ↔
  ∃ wb ws header rest,
    stage session !! STAGE_FILE_PATH r = Some (Xlsx wb) ∧
    find_sheet wb (WORKSHEET_NAME r) = Some ws ∧
    sheet_values ws = header :: rest ∧
    store_rejects session (TARGET_TABLE r) (Frame header rest) = false ∧
    full_local_path (STAGE_FILE_PATH r) ∉ lk.
Proof.
  unfold loadable, planned. split.
  - intros [[df Hdf] Hl].
    destruct (stage session !! STAGE_FILE_PATH r) as [f|]; [|done].
    simpl in Hdf.
    destruct (parse f (WORKSHEET_NAME r)) as [df'|] eqn:Hparse; [|done].
    apply parse_ok_inv in Hparse as (wb & ws & header & rest & -> & ? & ? & ->).
    exists wb, ws, header, rest. split_and!; try done.
    by destruct (store_rejects _ _ _).
  - intros (wb & ws & header & rest & -> & Hs & Hv & Hrej & Hl).
    split; [|done]. simpl. rewrite (parse_sheet _ _ _ _ _ Hs Hv), Hrej.
    by eexists.
Qed.

(** ** The loop *)

Lemma load_all_cons r rows w :
  load_all session (r :: rows) w =
    match load_row session r w with
    | (Ok _, w') => load_all session rows w'
    | (Raise e, w') => (Raise e, w')
    end.
Proof.
  unfold load_all, load_row. simpl. unfold mbind, M_bind.
  by destruct (load_excel_worksheet_to_table_local _ _ _ _ w) as [[b|e] w'].
Qed.

Lemma locked_loaded_all rows w :
  locked (loaded_all session rows w) = locked w.
Proof.
  revert w. induction rows as [|r rows IH]; intros w; [done|]. simpl.
  rewrite IH. by destruct (planned session r).
Qed.

Lemma load_all_ok rows w :
  Forall (loadable session (locked w)) rows →
  load_all session rows w = (Ok (), loaded_all session rows w).
Proof.
  intros Hall. revert w Hall.
  induction rows as [|r rows IH]; intros w Hall; [done|].
  apply Forall_cons in Hall as [[[df Hdf] Hl] Hall].
  rewrite load_all_cons, (load_ok _ _ _ Hdf Hl).
  simpl. rewrite Hdf. by apply IH.
Qed.

Lemma load_all_ok_inv rows w w' :
  load_all session rows w = (Ok (), w') →
  Forall (loadable session (locked w)) rows ∧ w' = loaded_all session rows w.
Proof.
  revert w. induction rows as [|r rows IH]; intros w Hrun.
  - by injection Hrun as <-.
  - rewrite load_all_cons in Hrun.
    destruct (load_row session r w) as [[b|e] w1] eqn:Hr; [|done].
    apply load_ok_inv in Hr as (df & Hdf & Hl & -> & ->).
    destruct r as [p s t]. simpl in *.
    apply IH in Hrun as [Hall ->]. rewrite Hdf. split; [|done].
    constructor; [|done]. split; [by eexists|done].
Qed.

Lemma load_all_abort pre r post w w1 e w2 :
  load_all session pre w = (Ok (), w1) →
  load_row session r w1 = (Raise e, w2) →
  load_all session (pre ++ r :: post) w = (Raise e, w2).
Proof.
  revert w. induction pre as [|r0 pre IH]; intros w Hpre Hr.
  - injection Hpre as ->. simpl. by rewrite load_all_cons, Hr.
  - simpl. rewrite load_all_cons in Hpre |- *.
    destruct (load_row session r0 w) as [[b|e0] w0]; [|done]. by apply IH.
Qed.

Lemma main_unfold w :
  main session w =
    match sql_engine session mapping_query with
    | inl e => (Raise e, add_call (SqlCollect mapping_query) w)
    | inr rows =>
        match load_all session rows (queried rows w) with
        | (Ok _, w') =>
            (Ok success_status, add_log (INFO, "06_load_excel_files end") w')
        | (Raise e, w') => (Raise e, w')
        end
    end.
Proof.
  unfold main, mbind, M_bind, session_sql_collect. simpl.
  destruct (sql_engine session mapping_query) as [e|rows]; [done|].
  change (add_log _ (add_call _ w)) with (queried rows w).
  by destruct (load_all session rows (queried rows w)) as [[[]|e] w'].
Qed.

(** ** What a successful run leaves behind *)

Lemma tables_loaded_all rows w :
  tables (loaded_all session rows w) =
    apply_writes (written session rows) (tables w).
Proof.
  revert w. induction rows as [|r rows IH]; intros w; [done|]. simpl.
  rewrite IH. unfold written. simpl. by destruct (planned session r).
Qed.

Lemma calls_loaded_all rows w :
  Forall (λ r, is_Some (planned session r)) rows →
  calls (loaded_all session rows w) = calls w ++ (rows ≫= record_calls).
Proof.
  intros Hall. revert w.
  induction Hall as [|r rows [df Hdf] _ IH]; intros w; simpl.
  - by rewrite (right_id_L [] (++)).
  - rewrite IH, Hdf. simpl. by rewrite <- !(assoc_L (++)).
Qed.

End loader.

Lemma saved_tables_record_calls rows :
  saved_tables (rows ≫= record_calls) = TARGET_TABLE <$> rows.
Proof.
  induction rows as [|r rows IH]; [done|].
  rewrite bind_cons, fmap_cons. unfold saved_tables in *.
  by rewrite omap_app, IH.
Qed.

Lemma fetched_paths_record_calls rows :
  fetched_paths (rows ≫= record_calls) = STAGE_FILE_PATH <$> rows.
Proof.
  induction rows as [|r rows IH]; [done|].
  rewrite bind_cons, fmap_cons. unfold fetched_paths in *.
  by rewrite omap_app, IH.
Qed.

(** Overwriting is last-writer-wins, so replaying the same writes changes
    nothing. *)
Lemma apply_writes_union ws m :
  apply_writes ws m = list_to_map (reverse ws) ∪ m.
Proof.
  revert m. induction ws as [|[t df] ws IH] using rev_ind; intros m.
  - simpl. by rewrite (left_id_L ∅ (∪)).
  - unfold apply_writes in *. rewrite foldl_app. simpl.
    rewrite IH, reverse_app. simpl. by rewrite insert_union_l.
Qed.

Lemma apply_writes_idemp ws m :
  apply_writes ws (apply_writes ws m) = apply_writes ws m.
Proof.
  rewrite !apply_writes_union, (assoc_L (∪)). f_equal. apply (idemp_L (∪)).
Qed.

Lemma apply_writes_lookup_ne ws (m : gmap string DataFrame) k :
  k ∉ ws.*1 → apply_writes ws m !! k = m !! k.
Proof.
  revert m. induction ws as [|[k' v] ws IH]; intros m Hk; [done|].
  simpl in *. apply not_elem_of_cons in Hk as [Hne Hk].
  unfold apply_writes in *. simpl. rewrite IH by done.
  by apply lookup_insert_ne.
Qed.

Lemma written_targets session rows k :
  k ∉ TARGET_TABLE <$> rows → k ∉ (written session rows).*1.
Proof.
  induction rows as [|r rows IH]; [done|]. simpl.
  intros [Hne Hk]%not_elem_of_cons. unfold written in *. simpl.
  destruct (planned session r); simpl; [|by apply IH].
  apply not_elem_of_cons. split; [done|by apply IH].
Qed.

Lemma apply_writes_app ws1 ws2 (m : gmap string DataFrame) :
  apply_writes (ws1 ++ ws2) m = apply_writes ws2 (apply_writes ws1 m).
Proof. apply foldl_app. Qed.

Lemma apply_writes_cons t df ws (m : gmap string DataFrame) :
  apply_writes ((t, df) :: ws) m = apply_writes ws (<[t := df]> m).
Proof. done. Qed.

Lemma written_app session rows1 rows2 :
  written session (rows1 ++ rows2)
  = written session rows1 ++ written session rows2.
Proof. apply omap_app. Qed.

Lemma written_cons session r rows :
  written session (r :: rows)
  = match planned session r with
    | Some df => (TARGET_TABLE r, df) :: written session rows
    | None => written session rows
    end.
Proof. unfold written. simpl. by destruct (planned session r). Qed.

(** The table of a row that no later row targets holds that row's frame. *)
Lemma apply_writes_last session pre r post df (m : gmap string DataFrame) :
  planned session r = Some df →
  TARGET_TABLE r ∉ TARGET_TABLE <$> post →
  apply_writes (written session (pre ++ r :: post)) m !! TARGET_TABLE r = Some df.
Proof.
  intros Hdf Hlast.
  rewrite written_app, written_cons, Hdf, apply_writes_app, apply_writes_cons.
  rewrite (apply_writes_lookup_ne _ _ _ (written_targets session post _ Hlast)).
  apply lookup_insert_eq.
Qed.

(** A load whose parse raises [e] while the deletion of the staged copy is
    refused: the caller gets the deletion's error and the copy stays. *)
Lemma load_parse_error_locked session p s t w f e :
  stage session !! p = Some f → parse f s = Raise e →
  full_local_path p ∈ locked w →
  (load_excel_worksheet_to_table_local session p s t w).1
    = Raise (with_context (permission_denied (full_local_path p)) e) ∧
  fs (load_excel_worksheet_to_table_local session p s t w).2
    !! full_local_path p = Some f.
Proof.
  intros Hp He Hl.
  pose proof (with_block_fetched session p s t f w) as Hb.
  rewrite He in Hb. simpl in Hb.
  rewrite (load_fetched _ _ _ _ _ _ _ _ Hp Hb). simpl.
  rewrite decide_True by done. simpl. split; [done|]. apply lookup_insert_eq.
Qed.

(** * The claims *)

(** C1. After a successful load from a workbook that has a sheet named
    exactly [worksheet_name], the destination table holds the sheet's rows
    after the first one, in order, under the first row's values as column
    names; the table's earlier content and schema are gone, and the other
    tables are as before. *)
Theorem load_success_overwrites session p s t w b w' wb ws :
  load_excel_worksheet_to_table_local session p s t w = (Ok b, w') →
  stage session !! p = Some (Xlsx wb) →
  find_sheet wb s = Some ws →
  ∃ header rest,
    sheet_values ws = header :: rest ∧
    tables w' !! t = Some (Frame header rest) ∧
    tables w' = <[t := Frame header rest]> (tables w).
Proof.
  intros (df & Hpl & _ & _ & ->)%load_ok_inv Hp Hs.
  unfold planned in Hpl. simpl in Hpl. rewrite Hp in Hpl. simpl in Hpl.
  destruct (parse (Xlsx wb) s) as [df'|] eqn:Hparse; [|done].
  apply parse_ok_inv in Hparse as (wb' & ws' & header & rest & [= <-] & Hs' & Hv & ->).
  rewrite Hs in Hs'. injection Hs' as <-.
  destruct (store_rejects session t _); [done|]. injection Hpl as <-.
  exists header, rest. simpl. split_and!; [done| |done].
  apply lookup_insert_eq.
Qed.

Lemma load_success_overwrites_witness :
  ∃ header rest,
    sheet_values people_sheet = header :: rest ∧
    tables (load_excel_worksheet_to_table_local frostbyte
              people_path "people" "PEOPLE" clean).2 !! "PEOPLE"
      = Some (Frame header rest) ∧
    tables (load_excel_worksheet_to_table_local frostbyte
              people_path "people" "PEOPLE" clean).2
      = <["PEOPLE" := Frame header rest]> (tables clean).
Proof.
  apply (load_success_overwrites frostbyte people_path "people" "PEOPLE" clean
           true _ people_book people_sheet);
    [vm_compute; reflexivity | reflexivity | reflexivity].
Defined.

(** The example of the specification: the header [ID], [NAME] and the rows
    of Alice and Bob replace the older table. *)
Example load_people :
  tables (load_excel_worksheet_to_table_local frostbyte
            people_path "people" "PEOPLE" clean).2 !! "PEOPLE"
  = Some (Frame [CStr "ID"; CStr "NAME"]
                [[CInt 1; CStr "Alice"]; [CInt 2; CStr "Bob"]]).
Proof. vm_compute. reflexivity. Qed.

(** C2, as stated, fails: the fetch is made before the [try] statement, so
    when it raises no cleanup runs and a file already at the local path is
    still there. *)
Lemma failed_fetch_leaves_local_file :
  (load_excel_worksheet_to_table_local frostbyte
     gone_path "gone" "GONE" stale).1
    = Raise (stage_file_missing gone_path) ∧
  fs (load_excel_worksheet_to_table_local frostbyte
        gone_path "gone" "GONE" stale).2 !! ("/tmp/" +:+ basename gone_path)
    = Some (Garbage []).
Proof. split; vm_compute; reflexivity. Qed.

(** C2, amended.  After every invocation in which the stage fetch has
    returned and the deletion is not refused, whether the load returns or
    raises in opening, parsing or writing, no file is left at
    [/tmp/basename(source_path)]. *)
Theorem load_removes_staged_file session p s t w f :
  stage session !! p = Some f →
  full_local_path p ∉ locked w →
  fs (load_excel_worksheet_to_table_local session p s t w).2
    !! ("/tmp/" +:+ basename p) = None.
Proof.
  intros Hp Hl.
  destruct (with_block session (full_local_path p) s t (fetched p f w))
    as [r w3] eqn:Hb.
  rewrite (load_fetched _ _ _ _ _ _ _ _ Hp Hb). simpl.
  rewrite decide_False by done. simpl.
  rewrite <- full_local_path_eq. apply lookup_delete_eq.
Qed.

Lemma load_removes_staged_file_witness :
  fs (load_excel_worksheet_to_table_local frostbyte
        people_path "People" "PEOPLE" clean).2
    !! ("/tmp/" +:+ basename people_path) = None.
Proof.
  apply (load_removes_staged_file frostbyte people_path "People" "PEOPLE" clean
           (Xlsx people_book)); [reflexivity | vm_compute; intros H; inversion H].
Defined.

(** C3, as stated, fails.  A row that names a valid workbook and one of
    its worksheets need not load: on the sheet without rows the run raises
    instead of returning the status.  And rows need not write different
    tables: the two loadable rows that share the target [LATEST] make a run
    that returns after two table writes, with one table written. *)
Lemma valid_rows_need_not_load_or_differ :
  (stage blank_row !! people_path = Some (Xlsx people_book) ∧
   find_sheet people_book "blank" = Some blank_sheet ∧
   (main blank_row clean).1 = Raise stop_iteration) ∧
  (Forall (loadable same_target (locked clean)) same_target_rows ∧
   length same_target_rows = 2 ∧
   (main same_target clean).1 = Ok success_status ∧
   tables (main same_target clean).2
   = <["LATEST" := Frame [CStr "LOCATION_ID"; CStr "CITY"] [[CInt 7; CStr "Oslo"]]]>
       (tables clean)).
Proof.
  split; split_and!; try (vm_compute; reflexivity).
  repeat constructor; try (by eexists); vm_compute; intros H; inversion H.
Qed.

(** C3, amended.  When the resolver returns [rows] and every row is
    loadable (its file is a workbook on the stage, the named sheet exists
    and has a header row, the store accepts the frame and the staged copy
    can be deleted, see [loadable_iff]), [main] loads the rows one by one in
    the resolver's order, makes as many table writes as there are rows, to
    the rows' targets in order, and returns the success status.  When the
    targets are pairwise different, as many tables as rows are written and
    each holds the frame of its row. *)
Theorem main_loads_every_row session w rows :
  sql_engine session mapping_query = inr rows →
  Forall (loadable session (locked w)) rows →
  ∃ w' new,
    main session w = (Ok success_status, w') ∧
    calls w' = calls w ++ SqlCollect mapping_query :: new ∧
    new = rows ≫= record_calls ∧
    fetched_paths new = STAGE_FILE_PATH <$> rows ∧
    saved_tables new = TARGET_TABLE <$> rows ∧
    length (saved_tables new) = length rows ∧
    tables w' = apply_writes (written session rows) (tables w) ∧
    (NoDup (TARGET_TABLE <$> rows) →
     size (list_to_set (saved_tables new) : gset string) = length rows ∧
     ∀ r, r ∈ rows → tables w' !! TARGET_TABLE r = planned session r).
Proof.
  intros Hsql Hall. rewrite main_unfold, Hsql.
  rewrite (load_all_ok session rows (queried rows w)) by done.
  eexists _, _. split; [reflexivity|]. simpl.
  rewrite calls_loaded_all, tables_loaded_all
    by (eapply Forall_impl; [exact Hall|]; by intros ? [? _]).
  simpl. rewrite <- (assoc_L (++)). split_and!; try done.
  - apply fetched_paths_record_calls.
  - apply saved_tables_record_calls.
  - by rewrite saved_tables_record_calls, length_fmap.
  - intros Hnd. rewrite saved_tables_record_calls. split.
    + by rewrite size_list_to_set, length_fmap.
    + intros r (pre & post & ->)%list_elem_of_split.
      apply Forall_app in Hall as [_ [[[df Hdf] _] _]%Forall_cons].
      rewrite fmap_app, fmap_cons in Hnd.
      apply NoDup_app in Hnd as (_ & _ & [Hlast _]%NoDup_cons).
      rewrite Hdf. by apply apply_writes_last.
Qed.

Lemma frostbyte_rows_loadable :
  Forall (loadable frostbyte (locked clean)) mapping_rows.
Proof.
  repeat constructor; try (by eexists); vm_compute; intros H; inversion H.
Defined.

Lemma main_loads_every_row_witness :
  ∃ w' new,
    main frostbyte clean = (Ok success_status, w') ∧
    calls w' = calls clean ++ SqlCollect mapping_query :: new ∧
    new = mapping_rows ≫= record_calls ∧
    fetched_paths new = STAGE_FILE_PATH <$> mapping_rows ∧
    saved_tables new = TARGET_TABLE <$> mapping_rows ∧
    length (saved_tables new) = length mapping_rows ∧
    tables w' = apply_writes (written frostbyte mapping_rows) (tables clean) ∧
    (NoDup (TARGET_TABLE <$> mapping_rows) →
     size (list_to_set (saved_tables new) : gset string) = length mapping_rows ∧
     ∀ r, r ∈ mapping_rows →
          tables w' !! TARGET_TABLE r = planned frostbyte r).
Proof.
  apply (main_loads_every_row frostbyte clean mapping_rows);
    [vm_compute; reflexivity | exact frostbyte_rows_loadable].
Defined.

(** The run on the two mapping rows, evaluated. *)
Example main_frostbyte :
  (main frostbyte clean).1 = Ok success_status ∧
  calls (main frostbyte clean).2 =
    [SqlCollect mapping_query;
     FileGet order_detail_path "/tmp/"; Open "/tmp/order_detail.xlsx";
     SaveAsTable "ORDER_DETAIL"; Remove "/tmp/order_detail.xlsx";
     FileGet location_path "/tmp/"; Open "/tmp/location.xlsx";
     SaveAsTable "LOCATION"; Remove "/tmp/location.xlsx"] ∧
  tables (main frostbyte clean).2 !! "LOCATION" =
    Some (Frame [CStr "LOCATION_ID"; CStr "CITY"] [[CInt 7; CStr "Oslo"]]).
Proof. split_and!; vm_compute; reflexivity. Qed.

(** C4. When the fetched workbook has no sheet named exactly
    [worksheet_name] (the match is case-sensitive), the load raises: the
    missing sheet's [KeyError], or the cleanup's error with the [KeyError]
    as context.  The only calls made are the fetch, the opening and the
    removal of the staged copy: no table write is attempted, and the
    destination tables are as before. *)
Theorem load_missing_worksheet session p s t w wb :
  stage session !! p = Some (Xlsx wb) →
  find_sheet wb s = None →
  ∃ e w',
    load_excel_worksheet_to_table_local session p s t w = (Raise e, w') ∧
    (e = missing_worksheet s ∨ exn_context e = Some (missing_worksheet s)) ∧
    calls w' = calls w ++ [FileGet p local_directory; Open (full_local_path p);
                           Remove (full_local_path p)] ∧
    saved_tables (drop (length (calls w)) (calls w')) = [] ∧
    tables w' = tables w.
Proof.
  intros Hp Hs.
  destruct (load_parse_error session p s t w _ _ Hp
              (parse_missing_worksheet _ _ Hs))
    as (e & w' & Hload & Ht & _ & Hc & He & _).
  exists e, w'. split_and!; [done..| |done].
  by rewrite Hc, drop_app_length.
Qed.

Lemma load_missing_worksheet_witness :
  ∃ e w',
    load_excel_worksheet_to_table_local frostbyte
      people_path "People" "PEOPLE" clean = (Raise e, w') ∧
    (e = missing_worksheet "People" ∨
     exn_context e = Some (missing_worksheet "People")) ∧
    calls w' = calls clean ++
      [FileGet people_path local_directory; Open (full_local_path people_path);
       Remove (full_local_path people_path)] ∧
    saved_tables (drop (length (calls clean)) (calls w')) = [] ∧
    tables w' = tables clean.
Proof.
  apply (load_missing_worksheet frostbyte people_path "People" "PEOPLE" clean
           people_book); reflexivity.
Defined.

(** The sheet is [people]; asking for [People] leaves the older table. *)
Example load_people_wrong_case :
  (load_excel_worksheet_to_table_local frostbyte
     people_path "People" "PEOPLE" clean).1 = Raise (missing_worksheet "People") ∧
  tables (load_excel_worksheet_to_table_local frostbyte
            people_path "People" "PEOPLE" clean).2 !! "PEOPLE" = Some old_people.
Proof. split; vm_compute; reflexivity. Qed.

(** C5. When the loads of the rows before [r] return and the load of [r]
    raises [e], [main] raises [e] in the very world in which that load
    stopped: the rows after [r] are never reached, nothing is fetched,
    opened, written or removed for them, and no status is returned.  The
    calls made are those of the rows before [r] and some of those of
    [r]. *)
Theorem main_aborts_at_first_failure session w pre r post w1 e w2 :
  sql_engine session mapping_query = inr (pre ++ r :: post) →
  load_all session pre (queried (pre ++ r :: post) w) = (Ok (), w1) →
  load_excel_worksheet_to_table_local session
    (STAGE_FILE_PATH r) (WORKSHEET_NAME r) (TARGET_TABLE r) w1 = (Raise e, w2) →
  main session w = (Raise e, w2) ∧
  ∃ cs, cs `sublist_of` record_calls r ∧
        calls w2 = calls w ++ SqlCollect mapping_query
                     :: (pre ≫= record_calls) ++ cs.
Proof.
  intros Hsql Hpre Hr. split.
  - rewrite main_unfold, Hsql.
    by rewrite (load_all_abort _ _ _ _ _ _ _ _ Hpre Hr).
  - apply load_all_ok_inv in Hpre as [Hall ->].
    destruct (load_calls session r) as (cs & Hsub & Hcs).
    exists cs. split; [done|].
    specialize (Hcs (loaded_all session pre (queried (pre ++ r :: post) w))).
    unfold load_row in Hcs. rewrite Hr in Hcs. simpl in Hcs. rewrite Hcs.
    rewrite calls_loaded_all
      by (eapply Forall_impl; [exact Hall|]; by intros ? [? _]).
    simpl. by rewrite <- !(assoc_L (++)).
Qed.

Lemma main_aborts_at_first_failure_witness :
  main strict_store clean
  = (Raise (write_rejected "ORDER_DETAIL"),
     (load_excel_worksheet_to_table_local strict_store
        order_detail_path "order_detail" "ORDER_DETAIL"
        (queried mapping_rows clean)).2) ∧
  ∃ cs,
    cs `sublist_of` record_calls (MkRow order_detail_path "order_detail" "ORDER_DETAIL") ∧
    calls (load_excel_worksheet_to_table_local strict_store
             order_detail_path "order_detail" "ORDER_DETAIL"
             (queried mapping_rows clean)).2
    = calls clean ++ SqlCollect mapping_query :: ([] ≫= record_calls) ++ cs.
Proof.
  apply (main_aborts_at_first_failure strict_store clean []
           (MkRow order_detail_path "order_detail" "ORDER_DETAIL")
           [MkRow location_path "location" "LOCATION"]
           (queried mapping_rows clean));
    [vm_compute; reflexivity | reflexivity | vm_compute; reflexivity].
Defined.

(** Record 1 of 2 fails during the write: the location file is never
    fetched and its table is never written. *)
Example main_strict_store :
  (main strict_store clean).1 = Raise (write_rejected "ORDER_DETAIL") ∧
  calls (main strict_store clean).2 =
    [SqlCollect mapping_query;
     FileGet order_detail_path "/tmp/"; Open "/tmp/order_detail.xlsx";
     SaveAsTable "ORDER_DETAIL"; Remove "/tmp/order_detail.xlsx"] ∧
  tables (main strict_store clean).2 = tables clean.
Proof. split_and!; vm_compute; reflexivity. Qed.

(** C6. When the mapping query fails, [main] raises the query's error
    having made no other call: no local file, no table and no log record
    has changed. *)
Theorem main_query_failure session w e :
  sql_engine session mapping_query = inl e →
  ∃ w',
    main session w = (Raise e, w') ∧
    calls w' = calls w ++ [SqlCollect mapping_query] ∧
    fs w' = fs w ∧ tables w' = tables w ∧ log w' = log w.
Proof. intros Hsql. rewrite main_unfold, Hsql. by eexists. Qed.

Lemma main_query_failure_witness :
  ∃ w',
    main broken_engine clean = (Raise sql_error, w') ∧
    calls w' = calls clean ++ [SqlCollect mapping_query] ∧
    fs w' = fs clean ∧ tables w' = tables clean ∧ log w' = log clean.
Proof.
  apply (main_query_failure broken_engine clean sql_error). reflexivity.
Defined.

(** C7, as stated, fails for step 1: an exception of the stage fetch leaves
    the loader at once, before the [try] statement; the loader logs no error
    record for it (only the attempt is in the log) and runs no cleanup. *)
Lemma failed_fetch_is_not_logged :
  load_excel_worksheet_to_table_local frostbyte gone_path "gone" "GONE" clean
  = (Raise (stage_file_missing gone_path),
     World (fs clean) (locked clean) (tables clean)
           [(INFO, "Attempting to GET file: " +:+ gone_path)]
           [FileGet gone_path "/tmp/"]).
Proof. vm_compute. reflexivity. Qed.

(** C7, amended.  Once the stage fetch has returned, every exception [e]
    raised in the [with] block (opening the local file, parsing the
    worksheet, writing the table) is logged as an error with the file's
    name; the cleanup then runs and the loader raises: [e] itself, or, when
    the deletion is refused, the deletion's error with [e] as context.  And
    the loader never returns normally unless the fetch and the [with] block
    both did, in which case no error record is logged. *)
Theorem load_logs_then_raises session p s t w :
  (∀ f e w3,
     stage session !! p = Some f →
     with_block session (full_local_path p) s t (fetched p f w) = (Raise e, w3) →
     ∃ e' w',
       load_excel_worksheet_to_table_local session p s t w = (Raise e', w') ∧
       log w' = log w3 ++
         [(ERROR, "Error processing file " +:+ basename p +:+ ": " +:+ str e)] ∧
       calls w' = calls w3 ++ [Remove (full_local_path p)] ∧
       e' = (if decide (full_local_path p ∈ locked w)
             then with_context (permission_denied (full_local_path p)) e
             else e)) ∧
  (∀ b w',
     load_excel_worksheet_to_table_local session p s t w = (Ok b, w') →
     ∃ f w3,
       stage session !! p = Some f ∧
       with_block session (full_local_path p) s t (fetched p f w) = (Ok (), w3) ∧
       log w' = log w3).
Proof.
  split.
  - intros f e w3 Hp Hb. rewrite (load_fetched _ _ _ _ _ _ _ _ Hp Hb). simpl.
    destruct (decide (full_local_path p ∈ locked w)); by eexists _, _.
  - intros b w' Hload.
    destruct (stage session !! p) as [f|] eqn:Hp;
      [|by rewrite load_fetch_failed in Hload].
    destruct (with_block session (full_local_path p) s t (fetched p f w))
      as [r w3] eqn:Hb.
    rewrite (load_fetched _ _ _ _ _ _ _ _ Hp Hb) in Hload. simpl in Hload.
    destruct (decide (full_local_path p ∈ locked w)); [done|].
    destruct r as [[]|e]; [|done]. injection Hload as <- <-.
    by exists f, w3.
Qed.

Lemma load_logs_then_raises_witness :
  ∃ e' w',
    load_excel_worksheet_to_table_local frostbyte
      people_path "People" "PEOPLE" clean = (Raise e', w') ∧
    log w' =
      log (with_block frostbyte (full_local_path people_path) "People" "PEOPLE"
             (fetched people_path (Xlsx people_book) clean)).2 ++
      [(ERROR, "Error processing file " +:+ basename people_path +:+ ": " +:+
               str (missing_worksheet "People"))] ∧
    calls w' =
      calls (with_block frostbyte (full_local_path people_path) "People" "PEOPLE"
               (fetched people_path (Xlsx people_book) clean)).2 ++
      [Remove (full_local_path people_path)] ∧
    e' = (if decide (full_local_path people_path ∈ locked clean)
          then with_context (permission_denied (full_local_path people_path))
                 (missing_worksheet "People")
          else missing_worksheet "People").
Proof.
  apply (proj1 (load_logs_then_raises frostbyte people_path "People" "PEOPLE"
                  clean) (Xlsx people_book));
    [reflexivity | vm_compute; reflexivity].
Defined.

(** C8, as stated, fails: when the worksheet is missing and the deletion of
    the staged copy is refused, the caller receives the deletion's
    [PermissionError], not the [KeyError] of the missing worksheet, which
    is kept as its context only. *)
Lemma cleanup_failure_masks_earlier_error :
  (load_excel_worksheet_to_table_local frostbyte
     people_path "People" "PEOPLE" readonly_tmp).1
    = Raise (Exn PermissionError "[Errno 13] Permission denied: '/tmp/people.xlsx'"
               (Some (missing_worksheet "People"))) ∧
  (load_excel_worksheet_to_table_local frostbyte
     people_path "People" "PEOPLE" readonly_tmp).1
    ≠ Raise (missing_worksheet "People").
Proof. split; [vm_compute; reflexivity | vm_compute; discriminate]. Qed.

(** C8, amended.  When the stage fetch has returned and the deletion of the
    staged copy is refused, the caller receives the deletion's error: with
    the exception of the [with] block as its context when there was one
    (that exception has been logged), and without context when the
    [with] block returned. *)
Theorem cleanup_failure_surfaces session p s t w f r w3 :
  stage session !! p = Some f →
  full_local_path p ∈ locked w →
  with_block session (full_local_path p) s t (fetched p f w) = (r, w3) →
  load_excel_worksheet_to_table_local session p s t w
  = (Raise (Exn PermissionError
              ("[Errno 13] Permission denied: '" +:+ full_local_path p +:+ "'")
              match r with Raise e => Some e | Ok _ => None end),
     add_call (Remove (full_local_path p)) (handled p r w3)).
Proof.
  intros Hp Hl Hb. rewrite (load_fetched _ _ _ _ _ _ _ _ Hp Hb). simpl.
  rewrite decide_True by done. by destruct r.
Qed.

Lemma cleanup_failure_surfaces_witness :
  load_excel_worksheet_to_table_local frostbyte
    people_path "people" "PEOPLE" readonly_tmp
  = (Raise (Exn PermissionError
              ("[Errno 13] Permission denied: '" +:+
               full_local_path people_path +:+ "'") None),
     add_call (Remove (full_local_path people_path))
       (handled people_path (Ok ())
          (with_block frostbyte (full_local_path people_path) "people" "PEOPLE"
             (fetched people_path (Xlsx people_book) readonly_tmp)).2)).
Proof.
  apply (cleanup_failure_surfaces frostbyte people_path "people" "PEOPLE"
           readonly_tmp (Xlsx people_book) (Ok ()));
    [reflexivity | vm_compute; reflexivity | vm_compute; reflexivity].
Defined.

(** C9. When a run succeeds, a second run right after it, on the same
    mapping rows and stage files, succeeds too and leaves every destination
    table as the first run left it. *)
Theorem main_twice session w status w1 :
  main session w = (Ok status, w1) →
  ∃ w2, main session w1 = (Ok status, w2) ∧ tables w2 = tables w1.
Proof.
  rewrite !main_unfold.
  destruct (sql_engine session mapping_query) as [e|rows]; [done|].
  destruct (load_all session rows (queried rows w)) as [[[]|e] w'] eqn:Hrun;
    [|done].
  intros [= <- <-].
  apply load_all_ok_inv in Hrun as [Hall ->].
  rewrite (load_all_ok session rows).
  - eexists. split; [done|]. simpl.
    rewrite tables_loaded_all. simpl. rewrite tables_loaded_all. simpl.
    apply apply_writes_idemp.
  - simpl. by rewrite locked_loaded_all.
Qed.

Lemma main_twice_witness :
  ∃ w2, main frostbyte (main frostbyte clean).2 = (Ok success_status, w2) ∧
        tables w2 = tables (main frostbyte clean).2.
Proof.
  apply (main_twice frostbyte clean success_status). vm_compute. reflexivity.
Defined.

(** C10, as stated, fails: when the sheet yields no row and the deletion of
    the staged copy is refused, the caller receives the deletion's
    [PermissionError] (with the [StopIteration] as context) and the staged
    copy is still there. *)
Lemma empty_sheet_copy_survives_refused_deletion :
  (load_excel_worksheet_to_table_local frostbyte
     people_path "blank" "PEOPLE" readonly_tmp).1
    = Raise (Exn PermissionError "[Errno 13] Permission denied: '/tmp/people.xlsx'"
               (Some stop_iteration)) ∧
  fs (load_excel_worksheet_to_table_local frostbyte
        people_path "blank" "PEOPLE" readonly_tmp).2 !! "/tmp/people.xlsx"
    = Some (Xlsx people_book).
Proof. split; vm_compute; reflexivity. Qed.

(** C10, amended.  On a worksheet that yields no row, consuming the header
    raises [StopIteration] before any frame is built: the load raises, no
    table write is attempted, the tables are as before and the deletion of
    the staged copy is attempted.  When the deletion is not refused, the
    error raised is the [StopIteration] and the copy is gone; when it is
    refused, the error raised is the deletion's, with the [StopIteration]
    as context, and the copy stays. *)
Theorem load_empty_worksheet session p s t w wb ws :
  stage session !! p = Some (Xlsx wb) →
  find_sheet wb s = Some ws →
  sheet_values ws = [] →
  ∃ e w',
    load_excel_worksheet_to_table_local session p s t w = (Raise e, w') ∧
    (e = stop_iteration ∨ exn_context e = Some stop_iteration) ∧
    calls w' = calls w ++ [FileGet p local_directory; Open (full_local_path p);
                           Remove (full_local_path p)] ∧
    tables w' = tables w ∧
    (full_local_path p ∉ locked w →
     e = stop_iteration ∧ fs w' !! full_local_path p = None) ∧
    (full_local_path p ∈ locked w →
     e = with_context (permission_denied (full_local_path p)) stop_iteration ∧
     fs w' !! full_local_path p = Some (Xlsx wb)).
Proof.
  intros Hp Hs Hv.
  pose proof (parse_empty_worksheet _ _ _ Hs Hv) as Hparse.
  destruct (load_parse_error session p s t w _ _ Hp Hparse)
    as (e & w' & Hload & Ht & _ & Hc & He & Hfs).
  exists e, w'. split_and!; try done.
  intros Hl.
  destruct (load_parse_error_locked session p s t w _ _ Hp Hparse Hl)
    as [He' Hfs'].
  rewrite Hload in He', Hfs'. simpl in He', Hfs'. by injection He' as ->.
Qed.

Lemma load_empty_worksheet_witness :
  ∃ e w',
    load_excel_worksheet_to_table_local frostbyte
      people_path "blank" "PEOPLE" clean = (Raise e, w') ∧
    (e = stop_iteration ∨ exn_context e = Some stop_iteration) ∧
    calls w' = calls clean ++
      [FileGet people_path local_directory; Open (full_local_path people_path);
       Remove (full_local_path people_path)] ∧
    tables w' = tables clean ∧
    (full_local_path people_path ∉ locked clean →
     e = stop_iteration ∧ fs w' !! full_local_path people_path = None) ∧
    (full_local_path people_path ∈ locked clean →
     e = with_context (permission_denied (full_local_path people_path))
           stop_iteration ∧
     fs w' !! full_local_path people_path = Some (Xlsx people_book)).
Proof.
  apply (load_empty_worksheet frostbyte people_path "blank" "PEOPLE" clean
           people_book blank_sheet); reflexivity.
Defined.

(** * Further properties of the loader *)

Lemma basename_no_sep p : has_sep p = false → basename p = p.
Proof. destruct p as [|c p]; [done|]. intros Hp. simpl in *. by rewrite Hp. Qed.

(** The tables after a load, whatever its outcome: the target is
    overwritten exactly when the row has a planned frame. *)
Lemma load_tables session p s t w :
  tables (load_excel_worksheet_to_table_local session p s t w).2 =
    match planned session (MkRow p s t) with
    | Some df => <[t := df]> (tables w)
    | None => tables w
    end.
Proof.
  unfold planned. simpl.
  destruct (stage session !! p) as [f|] eqn:Hp;
    [|by rewrite load_fetch_failed]. simpl.
  pose proof (with_block_fetched session p s t f w) as Hb.
  destruct (parse f s) as [df|e]; simpl in Hb;
    [destruct (store_rejects session t df)|];
    rewrite (load_fetched _ _ _ _ _ _ _ _ Hp Hb); simpl;
    by destruct (decide _).
Qed.

(** The local files after a load, whatever its outcome. *)
Lemma load_fs session p s t w :
  fs (load_excel_worksheet_to_table_local session p s t w).2 =
    match stage session !! p with
    | None => fs w
    | Some f =>
        if decide (full_local_path p ∈ locked w)
        then <[full_local_path p := f]> (fs w)
        else delete (full_local_path p) (fs w)
    end.
Proof.
  destruct (stage session !! p) as [f|] eqn:Hp;
    [|by rewrite load_fetch_failed].
  pose proof (with_block_fetched session p s t f w) as Hb.
  destruct (parse f s) as [df|e]; simpl in Hb;
    [destruct (store_rejects session t df)|];
    rewrite (load_fetched _ _ _ _ _ _ _ _ Hp Hb); simpl;
    destruct (decide _); simpl; try done; apply delete_insert_eq.
Qed.

(** X1. The staged copy lies directly in [/tmp/] and keeps the base name
    of the stage file, however deep the stage path is. *)
Theorem staged_copy_keeps_base_name p :
  full_local_path p = "/tmp/" +:+ basename p ∧
  basename (full_local_path p) = basename p ∧
  has_sep (basename p) = false.
Proof.
  split_and!; [apply full_local_path_eq| |apply has_sep_basename].
  rewrite full_local_path_eq. simpl.
  change ("" +:+ basename p) with (basename p).
  apply basename_no_sep, has_sep_basename.
Qed.

(** X2. Whatever its outcome, a load leaves every table other than its
    target as it was. *)
Theorem load_keeps_other_tables session p s t w t' :
  t' ≠ t →
  tables (load_excel_worksheet_to_table_local session p s t w).2 !! t'
  = tables w !! t'.
Proof.
  intros Hne. rewrite load_tables.
  destruct (planned session _); [|done]. by apply lookup_insert_ne.
Qed.

Lemma load_keeps_other_tables_witness :
  tables (load_excel_worksheet_to_table_local frostbyte
            location_path "location" "LOCATION" clean).2 !! "PEOPLE"
  = tables clean !! "PEOPLE".
Proof.
  apply (load_keeps_other_tables frostbyte location_path "location" "LOCATION"
           clean "PEOPLE"). discriminate.
Defined.

(** X3. Whatever its outcome, a load leaves every local file other than its
    staged copy as it was. *)
Theorem load_keeps_other_files session p s t w q :
  q ≠ full_local_path p →
  fs (load_excel_worksheet_to_table_local session p s t w).2 !! q = fs w !! q.
Proof.
  intros Hne. rewrite load_fs.
  destruct (stage session !! p); [|done].
  destruct (decide _); [by apply lookup_insert_ne|by apply lookup_delete_ne].
Qed.

Lemma load_keeps_other_files_witness :
  fs (load_excel_worksheet_to_table_local frostbyte
        people_path "people" "PEOPLE" stale).2 !! "/tmp/gone.xlsx"
  = fs stale !! "/tmp/gone.xlsx".
Proof.
  apply (load_keeps_other_files frostbyte people_path "people" "PEOPLE" stale
           "/tmp/gone.xlsx"). vm_compute. discriminate.
Defined.

(** X4. When the staged copy can be deleted, a load that raises, at
    whatever step, has written nothing: every table is as before. *)
Theorem load_raise_keeps_tables session p s t w e w' :
  load_excel_worksheet_to_table_local session p s t w = (Raise e, w') →
  full_local_path p ∉ locked w →
  tables w' = tables w.
Proof.
  intros Hload Hl.
  pose proof (load_tables session p s t w) as Ht. rewrite Hload in Ht.
  destruct (planned session (MkRow p s t)) as [df|] eqn:Hpl; [|done].
  pose proof (load_ok session (MkRow p s t) df w Hpl Hl) as Hok.
  unfold load_row in Hok. simpl in Hok. congruence.
Qed.

Lemma load_raise_keeps_tables_witness :
  tables (load_excel_worksheet_to_table_local strict_store
            order_detail_path "order_detail" "ORDER_DETAIL" clean).2
  = tables clean.
Proof.
  apply (load_raise_keeps_tables strict_store order_detail_path "order_detail"
           "ORDER_DETAIL" clean (write_rejected "ORDER_DETAIL"));
    [vm_compute; reflexivity | vm_compute; intros H; inversion H].
Defined.

(** X5. The write is not undone by a failing cleanup: when the row has a
    planned frame and the deletion of the staged copy is refused, the load
    raises the deletion's error although the target table has been
    overwritten and the success record logged; the staged copy stays. *)
Theorem load_written_before_failed_cleanup session p s t w df :
  planned session (MkRow p s t) = Some df →
  full_local_path p ∈ locked w →
  ∃ w',
    load_excel_worksheet_to_table_local session p s t w
    = (Raise (permission_denied (full_local_path p)), w') ∧
    tables w' = <[t := df]> (tables w) ∧
    log w' = log w ++ [attempt_message p; success_message t] ∧
    fs w' !! full_local_path p = stage session !! p.
Proof.
  unfold planned. simpl. intros Hpl Hl.
  destruct (stage session !! p) as [f|] eqn:Hp; [|done]. simpl in Hpl.
  pose proof (with_block_fetched session p s t f w) as Hb.
  destruct (parse f s) as [df'|]; [|done]. simpl in Hb.
  destruct (store_rejects session t df'); [done|]. injection Hpl as ->.
  rewrite (load_fetched _ _ _ _ _ _ _ _ Hp Hb). simpl.
  rewrite decide_True by done. eexists. split; [done|]. simpl.
  split_and!; [done| |apply lookup_insert_eq].
  by rewrite <- (assoc_L (++)).
Qed.

Lemma load_written_before_failed_cleanup_witness :
  ∃ w',
    load_excel_worksheet_to_table_local frostbyte
      people_path "people" "PEOPLE" readonly_tmp
    = (Raise (permission_denied (full_local_path people_path)), w') ∧
    tables w' = <["PEOPLE" := Frame [CStr "ID"; CStr "NAME"]
                    [[CInt 1; CStr "Alice"]; [CInt 2; CStr "Bob"]]]>
                  (tables readonly_tmp) ∧
    log w' = log readonly_tmp ++
             [attempt_message people_path; success_message "PEOPLE"] ∧
    fs w' !! full_local_path people_path = stage frostbyte !! people_path.
Proof.
  apply (load_written_before_failed_cleanup frostbyte people_path "people"
           "PEOPLE" readonly_tmp); vm_compute; reflexivity.
Defined.

(** X6. When the store refuses the frame, the load raises the store's error
    (or the cleanup's error with it as context): the fetch, the opening,
    the write and the removal have all been attempted, the refusal is logged
    with the file's name, and every table is as before. *)
Theorem load_write_rejected session p s t w wb ws header rest :
  stage session !! p = Some (Xlsx wb) →
  find_sheet wb s = Some ws →
  sheet_values ws = header :: rest →
  store_rejects session t (Frame header rest) = true →
  ∃ e w',
    load_excel_worksheet_to_table_local session p s t w = (Raise e, w') ∧
    (e = write_rejected t ∨ exn_context e = Some (write_rejected t)) ∧
    calls w' = calls w ++ record_calls (MkRow p s t) ∧
    log w' = log w ++ [attempt_message p; error_message p (write_rejected t)] ∧
    tables w' = tables w.
Proof.
  intros Hp Hs Hv Hrej.
  pose proof (with_block_fetched session p s t (Xlsx wb) w) as Hb.
  rewrite (parse_sheet _ _ _ _ _ Hs Hv) in Hb. simpl in Hb. rewrite Hrej in Hb.
  rewrite (load_fetched _ _ _ _ _ _ _ _ Hp Hb). simpl.
  destruct (decide (full_local_path p ∈ locked w));
    eexists _, _; (split; [reflexivity|]); simpl;
    rewrite <- !(assoc_L (++)); simpl; split_and!; auto.
Qed.

Lemma load_write_rejected_witness :
  ∃ e w',
    load_excel_worksheet_to_table_local strict_store
      order_detail_path "order_detail" "ORDER_DETAIL" clean = (Raise e, w') ∧
    (e = write_rejected "ORDER_DETAIL" ∨
     exn_context e = Some (write_rejected "ORDER_DETAIL")) ∧
    calls w' = calls clean ++
      record_calls (MkRow order_detail_path "order_detail" "ORDER_DETAIL") ∧
    log w' = log clean ++
      [attempt_message order_detail_path;
       error_message order_detail_path (write_rejected "ORDER_DETAIL")] ∧
    tables w' = tables clean.
Proof.
  apply (load_write_rejected strict_store order_detail_path "order_detail"
           "ORDER_DETAIL" clean [order_detail_sheet] order_detail_sheet
           [CStr "ORDER_ID"; CStr "QUANTITY"]
           [[CInt 10; CInt 3]; [CInt 11; CInt 5]]); reflexivity.
Defined.

(** X7. When the fetched file is no workbook, the load raises the
    library's error (or the cleanup's error with it as context) without
    attempting a write: the tables are as before and, unless the deletion
    is refused, the staged copy is gone. *)
Theorem load_not_a_workbook session p s t w bytes :
  stage session !! p = Some (Garbage bytes) →
  ∃ e w',
    load_excel_worksheet_to_table_local session p s t w = (Raise e, w') ∧
    (e = bad_zip_file ∨ exn_context e = Some bad_zip_file) ∧
    calls w' = calls w ++ [FileGet p local_directory; Open (full_local_path p);
                           Remove (full_local_path p)] ∧
    log w' = log w ++ [attempt_message p; error_message p bad_zip_file] ∧
    tables w' = tables w ∧
    (full_local_path p ∉ locked w →
     e = bad_zip_file ∧ fs w' !! full_local_path p = None).
Proof.
  intros Hp.
  destruct (load_parse_error session p s t w (Garbage bytes) bad_zip_file Hp
              eq_refl) as (e & w' & Hload & Ht & Hlog & Hc & He & Hfs).
  by exists e, w'.
Qed.

Lemma load_not_a_workbook_witness :
  ∃ e w',
    load_excel_worksheet_to_table_local archive
      notes_path "notes" "NOTES" clean = (Raise e, w') ∧
    (e = bad_zip_file ∨ exn_context e = Some bad_zip_file) ∧
    calls w' = calls clean ++
      [FileGet notes_path local_directory; Open (full_local_path notes_path);
       Remove (full_local_path notes_path)] ∧
    log w' = log clean ++
      [attempt_message notes_path; error_message notes_path bad_zip_file] ∧
    tables w' = tables clean ∧
    (full_local_path notes_path ∉ locked clean →
     e = bad_zip_file ∧ fs w' !! full_local_path notes_path = None).
Proof.
  apply (load_not_a_workbook archive notes_path "notes" "NOTES" clean
           [Byte.x6e; Byte.x6f]). vm_compute. reflexivity.
Defined.

(** X8. When the store accepts the empty frame and the staged copy can be
    deleted, a sheet that has a header row and no other row loads: the load
    returns, the target becomes an empty table under the header's column
    names and the staged copy is gone. *)
Theorem load_header_only session p s t w wb ws header :
  stage session !! p = Some (Xlsx wb) →
  find_sheet wb s = Some ws →
  sheet_values ws = [header] →
  store_rejects session t (Frame header []) = false →
  full_local_path p ∉ locked w →
  ∃ w',
    load_excel_worksheet_to_table_local session p s t w = (Ok true, w') ∧
    tables w' !! t = Some (Frame header []) ∧
    fs w' !! full_local_path p = None.
Proof.
  intros Hp Hs Hv Hrej Hl.
  assert (planned session (MkRow p s t) = Some (Frame header [])) as Hpl.
  { unfold planned. simpl. rewrite Hp. simpl.
    by rewrite (parse_sheet _ _ _ _ _ Hs Hv), Hrej. }
  pose proof (load_ok session _ _ w Hpl Hl) as Hok. unfold load_row in Hok.
  simpl in Hok. rewrite Hok. eexists. split; [done|]. simpl.
  split; [apply lookup_insert_eq|apply lookup_delete_eq].
Qed.

Lemma load_header_only_witness :
  ∃ w',
    load_excel_worksheet_to_table_local archive
      headers_path "headers" "PEOPLE" clean = (Ok true, w') ∧
    tables w' !! "PEOPLE" = Some (Frame [CStr "ID"; CStr "NAME"] []) ∧
    fs w' !! full_local_path headers_path = None.
Proof.
  apply (load_header_only archive headers_path "headers" "PEOPLE" clean
           [headers_sheet] headers_sheet [CStr "ID"; CStr "NAME"]);
    [vm_compute; reflexivity | reflexivity | reflexivity | reflexivity
    | vm_compute; intros H; inversion H].
Defined.

(** X9. Whether a load returns or raises, and what it raises, depends on
    the session and on which deletions are refused only: not on the local
    files, tables or log it starts from.  A file already at the local path
    is replaced by the fetch and never read. *)
Theorem load_outcome_ignores_state session p s t w v :
  locked w = locked v →
  (load_excel_worksheet_to_table_local session p s t w).1
  = (load_excel_worksheet_to_table_local session p s t v).1.
Proof.
  intros Hlk.
  destruct (stage session !! p) as [f|] eqn:Hp;
    [|by rewrite !load_fetch_failed].
  pose proof (with_block_fetched session p s t f w) as Hw.
  pose proof (with_block_fetched session p s t f v) as Hv.
  destruct (parse f s) as [df|e]; simpl in Hw, Hv;
    [destruct (store_rejects session t df)|];
    rewrite (load_fetched _ _ _ _ _ _ _ _ Hp Hw),
            (load_fetched _ _ _ _ _ _ _ _ Hp Hv); simpl;
    rewrite Hlk; by destruct (decide _).
Qed.

Lemma load_outcome_ignores_state_witness :
  (load_excel_worksheet_to_table_local frostbyte
     people_path "people" "PEOPLE" clean).1
  = (load_excel_worksheet_to_table_local frostbyte
       people_path "people" "PEOPLE"
       (World {[ "/tmp/people.xlsx" := Garbage [] ]} ∅ ∅ [] [])).1.
Proof.
  apply (load_outcome_ignores_state frostbyte people_path "people" "PEOPLE"
           clean (World {[ "/tmp/people.xlsx" := Garbage [] ]} ∅ ∅ [] [])).
  reflexivity.
Defined.

(** * Further properties of the run *)

Lemma main_ok_inv session w status w' :
  main session w = (Ok status, w') →
  ∃ rows,
    sql_engine session mapping_query = inr rows ∧
    Forall (loadable session (locked w)) rows ∧
    status = success_status ∧
    w' = add_log end_message (loaded_all session rows (queried rows w)).
Proof.
  rewrite main_unfold.
  destruct (sql_engine session mapping_query) as [e|rows]; [done|].
  destruct (load_all session rows (queried rows w)) as [[[]|e] w1] eqn:Hrun;
    [|done].
  intros [= <- <-]. apply load_all_ok_inv in Hrun as [Hall ->].
  by exists rows.
Qed.

Lemma loadable_planned session lk rows :
  Forall (loadable session lk) rows →
  Forall (λ r, is_Some (planned session r)) rows.
Proof. intros Hall. eapply Forall_impl; [exact Hall|]. by intros ? [? _]. Qed.

Lemma log_loaded_all session rows w :
  Forall (λ r, is_Some (planned session r)) rows →
  log (loaded_all session rows w) = log w ++ (rows ≫= record_log).
Proof.
  intros Hall. revert w.
  induction Hall as [|r rows [df Hdf] _ IH]; intros w; simpl.
  - by rewrite (right_id_L [] (++)).
  - rewrite IH, Hdf. simpl. by rewrite <- !(assoc_L (++)).
Qed.

Lemma fs_loaded_all_other session rows w q :
  (∀ r, r ∈ rows → q ≠ full_local_path (STAGE_FILE_PATH r)) →
  fs (loaded_all session rows w) !! q = fs w !! q.
Proof.
  revert w. induction rows as [|r rows IH]; intros w Hq; [done|]. simpl.
  rewrite IH by (intros; apply Hq; set_solver).
  destruct (planned session r); [|done]. simpl.
  apply lookup_delete_ne. intros Heq. by eapply Hq; [left|].
Qed.

Lemma fs_loaded_all_none session rows w q :
  fs w !! q = None → fs (loaded_all session rows w) !! q = None.
Proof.
  revert w. induction rows as [|r rows IH]; intros w Hq; [done|]. simpl.
  apply IH. destruct (planned session r); [|done]. simpl.
  rewrite lookup_delete. by case_decide.
Qed.

Lemma fs_loaded_all_staged session rows w r :
  Forall (λ r, is_Some (planned session r)) rows →
  r ∈ rows →
  fs (loaded_all session rows w) !! full_local_path (STAGE_FILE_PATH r) = None.
Proof.
  intros Hall. revert w.
  induction Hall as [|r0 rows [df Hdf] _ IH]; intros w Hin; [by inversion Hin|].
  simpl. rewrite Hdf. apply elem_of_cons in Hin as [->|Hin]; [|by apply IH].
  apply fs_loaded_all_none. simpl. apply lookup_delete_eq.
Qed.

(** The tables after the loop, whatever its outcome, off the targets. *)
Lemma load_all_keeps_other_tables session rows w t :
  t ∉ TARGET_TABLE <$> rows →
  tables (load_all session rows w).2 !! t = tables w !! t.
Proof.
  revert w. induction rows as [|r rows IH]; intros w Ht; [done|].
  simpl in Ht. apply not_elem_of_cons in Ht as [Hne Ht].
  rewrite load_all_cons.
  pose proof (load_tables session
    (STAGE_FILE_PATH r) (WORKSHEET_NAME r) (TARGET_TABLE r) w) as Hstep.
  unfold load_row.
  destruct (load_excel_worksheet_to_table_local _ _ _ _ w) as [[b|e] w1];
    simpl in *.
  - rewrite IH by done. rewrite Hstep.
    destruct (planned session _); [|done]. by apply lookup_insert_ne.
  - rewrite Hstep.
    destruct (planned session _); [|done]. by apply lookup_insert_ne.
Qed.

(** X10. When the mapping query returns no row, [main] returns the success
    status having made no call but the query: it logs that it found 0
    files and that it ended, and leaves local files and tables as they
    were. *)
Theorem main_no_rows session w :
  sql_engine session mapping_query = inr [] →
  main session w
  = (Ok success_status,
     World (fs w) (locked w) (tables w)
           (log w ++ [(INFO, "Found 0 files to process."); end_message])
           (calls w ++ [SqlCollect mapping_query])).
Proof.
  intros Hsql. rewrite main_unfold, Hsql. simpl.
  unfold add_log, queried, add_log, add_call. simpl.
  by rewrite <- (assoc_L (++)).
Qed.

Lemma main_no_rows_witness :
  main no_rows clean
  = (Ok success_status,
     World (fs clean) (locked clean) (tables clean)
           (log clean ++ [(INFO, "Found 0 files to process."); end_message])
           (calls clean ++ [SqlCollect mapping_query])).
Proof. apply (main_no_rows no_rows clean). reflexivity. Defined.

(** X11. A run that returns has logged, in this order: the number of rows
    found, for each row the attempt to fetch its file and the success of
    its load, and the end of the run.  None of these records is an error
    record. *)
Theorem main_success_log session w status w' rows :
  main session w = (Ok status, w') →
  sql_engine session mapping_query = inr rows →
  ∃ new,
    log w' = log w ++ new ∧
    new = found_message rows :: (rows ≫= record_log) ++ [end_message] ∧
    Forall (λ r, r.1 = INFO) new.
Proof.
  intros (rows' & Hsql & Hall & _ & ->)%main_ok_inv Hrows.
  rewrite Hsql in Hrows. injection Hrows as ->.
  eexists. split_and!; [|reflexivity|].
  - simpl. rewrite log_loaded_all by by eapply loadable_planned.
    simpl. by rewrite <- !(assoc_L (++)).
  - constructor; [done|]. apply Forall_app. split; [|by repeat constructor].
    clear. induction rows as [|r rows IH]; [done|].
    rewrite bind_cons. apply Forall_app. split; [|done]. by repeat constructor.
Qed.

Lemma main_success_log_witness :
  ∃ new,
    log (main frostbyte clean).2 = log clean ++ new ∧
    new = found_message mapping_rows :: (mapping_rows ≫= record_log)
            ++ [end_message] ∧
    Forall (λ r, r.1 = INFO) new.
Proof.
  apply (main_success_log frostbyte clean success_status _ mapping_rows);
    vm_compute; reflexivity.
Defined.

(** X12. A run that returns leaves no staged copy behind: the local path of
    every row is free, and every other local file is as it was. *)
Theorem main_success_cleans_up session w status w' rows :
  main session w = (Ok status, w') →
  sql_engine session mapping_query = inr rows →
  (∀ r, r ∈ rows → fs w' !! full_local_path (STAGE_FILE_PATH r) = None) ∧
  (∀ q, (∀ r, r ∈ rows → q ≠ full_local_path (STAGE_FILE_PATH r)) →
        fs w' !! q = fs w !! q).
Proof.
  intros (rows' & Hsql & Hall & _ & ->)%main_ok_inv Hrows.
  rewrite Hsql in Hrows. injection Hrows as ->. simpl. split.
  - intros r Hr. apply fs_loaded_all_staged; [|done].
    by eapply loadable_planned.
  - intros q Hq. by rewrite fs_loaded_all_other.
Qed.

Lemma main_success_cleans_up_witness :
  (∀ r, r ∈ mapping_rows →
        fs (main frostbyte stale).2 !! full_local_path (STAGE_FILE_PATH r) = None) ∧
  (∀ q, (∀ r, r ∈ mapping_rows → q ≠ full_local_path (STAGE_FILE_PATH r)) →
        fs (main frostbyte stale).2 !! q = fs stale !! q).
Proof.
  apply (main_success_cleans_up frostbyte stale success_status _ mapping_rows);
    vm_compute; reflexivity.
Defined.

(** X13. When several rows name the same target, the last of them wins: in
    a run that returns, the table of a row that no later row overwrites
    holds that row's frame. *)
Theorem main_last_writer_wins session w status w' pre r post :
  main session w = (Ok status, w') →
  sql_engine session mapping_query = inr (pre ++ r :: post) →
  TARGET_TABLE r ∉ TARGET_TABLE <$> post →
  ∃ df, planned session r = Some df ∧ tables w' !! TARGET_TABLE r = Some df.
Proof.
  intros (rows' & Hsql & Hall & _ & ->)%main_ok_inv Hrows Hlast.
  rewrite Hsql in Hrows. injection Hrows as ->.
  apply Forall_app in Hall as [_ [[[df Hdf] _] _]%Forall_cons].
  exists df. split; [done|]. simpl. rewrite tables_loaded_all. simpl.
  rewrite written_app, written_cons, Hdf, apply_writes_app, apply_writes_cons.
  rewrite (apply_writes_lookup_ne _ _ _ (written_targets session post _ Hlast)).
  apply lookup_insert_eq.
Qed.

Lemma main_last_writer_wins_witness :
  ∃ df,
    planned same_target (MkRow location_path "location" "LATEST") = Some df ∧
    tables (main same_target clean).2 !! "LATEST" = Some df.
Proof.
  apply (main_last_writer_wins same_target clean success_status _
           [MkRow order_detail_path "order_detail" "LATEST"]
           (MkRow location_path "location" "LATEST") []);
    [vm_compute; reflexivity | reflexivity | apply not_elem_of_nil].
Defined.

(** X14. Nothing is rolled back: when the load of [r] raises after the
    loads of the rows before it returned, the tables written for those
    rows keep their new contents and, the staged copy of [r] being
    deletable, no other table has changed. *)
Theorem main_failure_keeps_earlier_writes session w pre r post w1 e w2 :
  sql_engine session mapping_query = inr (pre ++ r :: post) →
  load_all session pre (queried (pre ++ r :: post) w) = (Ok (), w1) →
  load_excel_worksheet_to_table_local session
    (STAGE_FILE_PATH r) (WORKSHEET_NAME r) (TARGET_TABLE r) w1 = (Raise e, w2) →
  full_local_path (STAGE_FILE_PATH r) ∉ locked w →
  main session w = (Raise e, w2) ∧
  tables w2 = apply_writes (written session pre) (tables w).
Proof.
  intros Hsql Hpre Hr Hl. split.
  - rewrite main_unfold, Hsql.
    by rewrite (load_all_abort _ _ _ _ _ _ _ _ Hpre Hr).
  - apply load_all_ok_inv in Hpre as [Hall ->].
    pose proof (load_tables session (STAGE_FILE_PATH r) (WORKSHEET_NAME r)
                  (TARGET_TABLE r)
                  (loaded_all session pre (queried (pre ++ r :: post) w))) as Ht.
    rewrite Hr in Ht. simpl in Ht.
    destruct r as [p s t]. simpl in *.
    destruct (planned session (MkRow p s t)) as [df|] eqn:Hpl.
    + pose proof (load_ok session (MkRow p s t) df
                    (loaded_all session pre (queried (pre ++ MkRow p s t :: post) w))
                    Hpl) as Hok.
      rewrite locked_loaded_all in Hok. unfold load_row in Hok. simpl in Hok.
      rewrite Hok in Hr by done. done.
    + by rewrite Ht, tables_loaded_all.
Qed.

Lemma main_failure_keeps_earlier_writes_witness :
  main late_failure clean
  = (Raise (write_rejected "ORDER_DETAIL"), (main late_failure clean).2) ∧
  tables (main late_failure clean).2
  = apply_writes (written late_failure [MkRow location_path "location" "LOCATION"])
      (tables clean).
Proof.
  apply (main_failure_keeps_earlier_writes late_failure clean
           [MkRow location_path "location" "LOCATION"]
           (MkRow order_detail_path "order_detail" "ORDER_DETAIL") []
           (load_all late_failure [MkRow location_path "location" "LOCATION"]
              (queried late_failure_rows clean)).2);
    [reflexivity | vm_compute; reflexivity | vm_compute; reflexivity
    | vm_compute; intros H; inversion H].
Defined.

(** X15. Whatever its outcome, a run leaves every table that no mapping row
    targets as it was. *)
Theorem main_keeps_other_tables session w t :
  (∀ rows, sql_engine session mapping_query = inr rows →
           t ∉ TARGET_TABLE <$> rows) →
  tables (main session w).2 !! t = tables w !! t.
Proof.
  intros Ht. rewrite main_unfold.
  destruct (sql_engine session mapping_query) as [e|rows]; [done|].
  pose proof (load_all_keeps_other_tables session rows (queried rows w) t
                (Ht rows eq_refl)) as Hrun.
  by destruct (load_all session rows (queried rows w)) as [[[]|e] w1].
Qed.

Lemma main_keeps_other_tables_witness :
  tables (main strict_store clean).2 !! "PEOPLE" = tables clean !! "PEOPLE".
Proof.
  apply (main_keeps_other_tables strict_store clean "PEOPLE").
  intros rows Hrows. vm_compute in Hrows. injection Hrows as <-.
  intros Hin. repeat (apply elem_of_cons in Hin as [Hin|Hin]; [discriminate|]).
  by apply elem_of_nil in Hin.
Defined.
